(** * WeightCha: the scoring pipeline and the verification lifecycle

    A shallow embedding of the backend of WeightCha
    (backend-api/src/services/humanPatternAnalyzer.js,
    backend-api/src/utils/humanPatternAnalyzer.js,
    backend-api/src/services/verificationService.js,
    backend-api/src/services/challengeService.js and the verification
    routes) together with the properties that the specification states
    about them.

    JavaScript numbers are IEEE-754 binary64 values; they are modelled by
    Rocq's primitive floats, whose operations are the same correctly rounded
    ones, so that NaN, infinities and rounding behave as in the program. *)

From stdpp Require Import gmap strings.
From Stdlib Require Import ZArith List Bool Floats Lia.
Import ListNotations.

Set Warnings "-inexact-float".
#[local] Open Scope float_scope.

(** ** JavaScript primitives used by the sources *)

Module Js.

(** Truthiness of a number: [0], [-0] and [NaN] are falsy. *)
Definition truthy (x : float) : bool := negb (is_nan x || is_zero x).

(** [a || b] on numbers. *)
Definition or_else (a b : float) : float := if truthy a then a else b.

(** [o || b] where [o] may be [undefined]. *)
Definition opt_or (o : option float) (b : float) : float :=
  match o with Some a => or_else a b | None => b end.

Definition is_neg_zero (x : float) : bool :=
  match classify x with NZero => true | _ => false end.

(** [Math.max(a, b)]: NaN is contagious and [+0] is larger than [-0]. *)
Definition max2 (a b : float) : float :=
  if is_nan a || is_nan b then nan
  else if a <? b then b
  else if b <? a then a
  else if is_neg_zero a then b else a.

(** [Math.min(a, b)]: NaN is contagious and [-0] is smaller than [+0]. *)
Definition min2 (a b : float) : float :=
  if is_nan a || is_nan b then nan
  else if a <? b then a
  else if b <? a then b
  else if is_neg_zero a then a else b.

(** [Math.max(...l)] and [Math.min(...l)]; on the empty list they are
    [-Infinity] and [+Infinity]. *)
Definition Math_max (l : list float) : float := fold_left max2 l neg_infinity.
Definition Math_min (l : list float) : float := fold_left min2 l infinity.

(** [l.reduce((a, b) => a + b, 0)]. *)
Definition sum (l : list float) : float := fold_left PrimFloat.add l 0.

(** [l.length] as a number.  Lengths and indices are counted directly in
    binary64, which is exact below 2^53. *)
Fixpoint length {A} (l : list A) : float :=
  match l with
  | [] => 0
  | _ :: t => length t + 1
  end.

(** The numbers [i, i+1, ..., i+n-1]. *)
Fixpoint indices (i : float) (n : nat) : list float :=
  match n with
  | O => []
  | S k => i :: indices (i + 1) k
  end.

(** [Math.pow(x, 2)]. *)
Definition sq (x : float) : float := x * x.

Definition two52 : float := 4503599627370496.

(** [Math.floor]. Every binary64 of magnitude at least 2^52 is integral;
    below, adding and subtracting 2^52 rounds to an integer. *)
Definition floor (x : float) : float :=
  if is_nan x || is_infinity x then x
  else if two52 <=? abs x then x
  else
    let a := abs x in
    let r := (a + two52) - two52 in
    let t := if a <? r then r - 1 else r in
    if 0 <=? x then (if is_neg_zero x then x else t)
    else if t =? a then - t else - (t + 1).

(** [Math.round]: the nearest integer, ties towards [+Infinity]. *)
Definition round (x : float) : float :=
  if is_nan x || is_infinity x then x
  else
    let f := floor x in
    if 0.5 <=? x - f
    then (if (f + 1 =? 0) && (x <? 0) then -0 else f + 1)
    else f.

(** [s.includes(sub)] on strings. *)
Fixpoint includes (s sub : string) : bool :=
  String.prefix sub s
  || match s with
     | EmptyString => false
     | String _ rest => includes rest sub
     end.

(** [values.indexOf(x)]: strict equality, so NaN is never found. *)
Fixpoint indexOf (l : list float) (x : float) : option nat :=
  match l with
  | [] => None
  | y :: t => if y =? x then Some O else option_map S (indexOf t x)
  end.

End Js.

(** ** Submitted data

    The shapes are those that the request schema of
    [POST /api/v1/verification/submit] lets through: [timestamp] and
    [pressure] are required numbers, the other fields are optional. *)

Record Position := { pos_x : float; pos_y : float }.

Record PressureSample := {
  timestamp : float;
  pressure : float;
  weight : option float;
  position : option Position
}.

Record Acceleration := { acc_x : float; acc_y : float; acc_z : float }.

Record MotionSample := {
  motion_timestamp : float;
  acceleration : option Acceleration
}.

Record Screen := {
  width : option Z;
  height : option Z
}.

Record DeviceInfo := {
  userAgent : option string;
  screen : option Screen;
  trackpadType : option string;
  browserSupport : option (list string)
}.

(** [deviceInfo || {}]. *)
Definition emptyDeviceInfo : DeviceInfo :=
  {| userAgent := None; screen := None; trackpadType := None; browserSupport := None |}.

Inductive DetectionMethod :=
| webHID | forceTouch | pointerEvents | motionSensors | touchEvents | unknown.

Inductive ChallengeType :=
| pressure_pattern | rhythm_test | sustained_pressure | progressive_pressure.

Inductive Difficulty := easy | medium | hard.

Record VerificationData := {
  pressureData : list PressureSample;
  motionData : list MotionSample;
  deviceInfo : DeviceInfo;
  detectionMethod : DetectionMethod;
  challengeType : ChallengeType;
  challengeDifficulty : Difficulty
}.

(** ** services/humanPatternAnalyzer.js

    The analyzer that [VerificationService.submitVerification] runs. *)

Module Analyzer.

Record Range := { min : float; max : float }.

(** [this.patterns] (the entries that the analysis reads). *)
Record Patterns := {
  pressureVariance : Range;
  timingIrregularity : Range;
  naturalRhythm : Range
}.

Record BrowserPattern := { accuracy : float; confidenceBoost : float }.

Record DeviceProfile := {
  name : string;
  pressureMultiplier : float;
  sensitivity : float
}.

(** The instance built by the constructor. *)
Record HumanPatternAnalyzer := {
  patterns : Patterns;
  browserPatterns : DetectionMethod -> option BrowserPattern;
  deviceProfiles : list (string * (float * float))
}.

(** The inch mark in the device names. *)
Definition inch : string := String (Ascii.ascii_of_nat 34) EmptyString.

Definition MacBookPro16 : string := "MacBook Pro 16" +:+ inch +:+ " 2021".
Definition MacBookPro14 : string := "MacBook Pro 14" +:+ inch +:+ " 2021".
Definition iPadPro : string := "iPad Pro 12.9" +:+ inch.

Definition constructor : HumanPatternAnalyzer := {|
  patterns := {|
    pressureVariance := {| min := 0.01; max := 0.15 |};
    timingIrregularity := {| min := 0.05; max := 0.25 |};
    naturalRhythm := {| min := 0.3; max := 0.8 |}
  |};
  browserPatterns := fun m =>
    match m with
    | webHID => Some {| accuracy := 0.95; confidenceBoost := 0.1 |}
    | forceTouch => Some {| accuracy := 0.90; confidenceBoost := 0.08 |}
    | pointerEvents => Some {| accuracy := 0.75; confidenceBoost := 0.05 |}
    | motionSensors => Some {| accuracy := 0.60; confidenceBoost := 0.02 |}
    | touchEvents | unknown => None
    end;
  deviceProfiles :=
    [ (MacBookPro16, (1.2, 0.95));
      (MacBookPro14, (1.15, 0.93));
      ("MacBook Air M1"%string, (1.0, 0.88));
      ("MacBook Air M2"%string, (1.05, 0.90));
      ("Surface Pro 8"%string, (0.9, 0.75));
      ("Surface Pro 9"%string, (0.95, 0.78));
      (iPadPro, (0.8, 0.70));
      ("generic"%string, (1.0, 0.65)) ]
|}.

(** [table[key]] on an object used as a table. *)
Fixpoint lookup {A} (table : list (string * A)) (key : string) : option A :=
  match table with
  | [] => None
  | (k, v) :: rest => if String.eqb k key then Some v else lookup rest key
  end.

(** *** Helper methods for calculations *)

Definition calculateVariance (values : list float) : float :=
  match values with
  | [] => 0
  | _ =>
      let mean := Js.sum values / Js.length values in
      let squaredDiffs := map (fun value => Js.sq (value - mean)) values in
      Js.sum squaredDiffs / Js.length values
  end.

(** The loop of [calculateNaturalness] over the interior points; it
    returns [(smoothTransitions, totalTransitions)]. *)
Fixpoint naturalnessLoop (values : list float) (smooth total : float) : float * float :=
  match values with
  | prev :: ((cur :: next :: _) as rest) =>
      let change1 := abs (cur - prev) in
      let change2 := abs (next - cur) in
      let smooth' :=
        if (change1 <? 0.3) && (change2 <? 0.3) then smooth + 1 else smooth in
      naturalnessLoop rest smooth' (total + 1)
  | _ => (smooth, total)
  end.

Definition calculateNaturalness (values : list float) : float :=
  if (List.length values <? 3)%nat then 0
  else
    let '(smoothTransitions, totalTransitions) := naturalnessLoop values 0 0 in
    if 0 <? totalTransitions then smoothTransitions / totalTransitions else 0.

(** The number of leading values below the threshold. *)
Fixpoint gradualPoints (values : list float) (gradualThreshold : float) : nat :=
  match values with
  | v :: rest =>
      if v <? gradualThreshold then S (gradualPoints rest gradualThreshold) else O
  | [] => O
  end.

Definition hasGradualPressureIncrease (values : list float) : bool :=
  if (List.length values <? 3)%nat then false
  else
    let peak := Js.Math_max values in
    let gradualThreshold := peak * 0.3 in
    (2 <=? gradualPoints values gradualThreshold)%nat.

(** The release loop: [false] as soon as one step drops by more than half
    of the peak. *)
Fixpoint gradualRelease (releaseValues : list float) (peak : float) : bool :=
  match releaseValues with
  | prev :: ((cur :: _) as rest) =>
      let drop := prev - cur in
      if peak * 0.5 <? drop then false else gradualRelease rest peak
  | _ => true
  end.

Definition hasNaturalPressureRelease (values : list float) : bool :=
  if (List.length values <? 3)%nat then false
  else
    let peak := Js.Math_max values in
    match Js.indexOf values peak with
    | Some peakIndex =>
        if (List.length values - 2 <=? peakIndex)%nat then true
        else gradualRelease (skipn peakIndex values) peak
    | None =>
        (* indexOf gave -1: [values.slice(-1)] is the last element alone *)
        gradualRelease (skipn (List.length values - 1) values) peak
    end.

(** The loop of [calculateSmoothness]; it returns [(totalChange, maxChange)]. *)
Fixpoint smoothnessLoop (values : list float) (totalChange maxChange : float)
  : float * float :=
  match values with
  | prev :: ((cur :: _) as rest) =>
      let change := abs (cur - prev) in
      smoothnessLoop rest (totalChange + change) (Js.max2 maxChange change)
  | _ => (totalChange, maxChange)
  end.

Definition calculateSmoothness (values : list float) : float :=
  if (List.length values <? 2)%nat then 0
  else
    let '(totalChange, maxChange) := smoothnessLoop values 0 0 in
    let avgChange := totalChange / (Js.length values - 1) in
    if 0 <? maxChange then 1 - avgChange / maxChange else 1.

Definition calculateRhythmicity (intervals : list float) : float :=
  if (List.length intervals <? 3)%nat then 0
  else
    let variance := calculateVariance intervals in
    let mean := Js.sum intervals / Js.length intervals in
    if 0 <? mean then Js.max2 0 (1 - variance / (mean * mean)) else 0.

Definition normalizeArray (arr : list float) : list float :=
  match arr with
  | [] => []
  | _ =>
      let min := Js.Math_min arr in
      let max := Js.Math_max arr in
      let range := max - min in
      if range =? 0 then map (fun _ => 0) arr
      else map (fun val => (val - min) / range) arr
  end.

(** [for (let i = 0; i < a.length; i += step) out.push(f(a[i]))], with
    [skip] the number of elements still to pass over. *)
Fixpoint everyNth {A B} (f : A -> B) (step skip : nat) (a : list A) : list B :=
  match a with
  | [] => []
  | x :: rest =>
      match skip with
      | O => f x :: everyNth f step (step - 1) rest
      | S k => everyNth f step k rest
      end
  end.

Definition signaturePoint (v : float) : float := Js.round (v * 100) / 100.

Definition pressureOf (d : PressureSample) : float :=
  Js.or_else (pressure d) (Js.opt_or (weight d) 0).

Definition createPressureSignature (pressureData : list PressureSample) : list float :=
  let pressures := map pressureOf pressureData in
  let normalized := normalizeArray pressures in
  let step := Nat.max 1 (List.length normalized / 10) in
  everyNth signaturePoint step 0 normalized.

Definition magnitudeOf (d : MotionSample) : float :=
  match acceleration d with
  | Some acc => sqrt (acc_x acc * acc_x acc + acc_y acc * acc_y acc + acc_z acc * acc_z acc)
  | None => sqrt (0 * 0 + 0 * 0 + 0 * 0)
  end.

Definition createMotionSignature (motionData : list MotionSample) : list float :=
  match motionData with
  | [] => []
  | _ =>
      let magnitudes := map magnitudeOf motionData in
      let normalized := normalizeArray magnitudes in
      let step := Nat.max 1 (List.length normalized / 5) in
      everyNth signaturePoint step 0 normalized
  end.

Definition calculateUniqueness (pressureSignature motionSignature : list float) : float :=
  let combined := pressureSignature ++ motionSignature in
  match combined with
  | [] => 0
  | _ =>
      let variance := calculateVariance combined in
      let range := Js.Math_max combined - Js.Math_min combined in
      Js.min2 1 (variance * range)
  end.

Definition calculateComplexity
    (pressureData : list PressureSample) (motionData : list MotionSample) : float :=
  let pressureComplexity :=
    match pressureData with
    | [] => 0
    | _ => calculateVariance (map pressureOf pressureData)
    end in
  let motionComplexity :=
    match motionData with
    | [] => 0
    | _ => calculateVariance (map magnitudeOf motionData)
    end in
  (pressureComplexity + motionComplexity) / 2.

(** *** Device profile *)

Definition userAgentOf (deviceInfo : DeviceInfo) : string :=
  match userAgent deviceInfo with Some u => u | None => EmptyString end.

Definition screenWidth (deviceInfo : DeviceInfo) : option Z :=
  match screen deviceInfo with Some s => width s | None => None end.

Definition screenHeight (deviceInfo : DeviceInfo) : option Z :=
  match screen deviceInfo with Some s => height s | None => None end.

(** [a === n] for an optional integer field. *)
Definition equals (a : option Z) (n : Z) : bool :=
  match a with Some v => (v =? n)%Z | None => false end.

Definition getDeviceProfile (self : HumanPatternAnalyzer) (deviceInfo : DeviceInfo)
  : DeviceProfile :=
  let userAgent := userAgentOf deviceInfo in
  let w := screenWidth deviceInfo in
  let h := screenHeight deviceInfo in
  let deviceName :=
    if Js.includes userAgent "Macintosh" then
      if equals w 3456 && equals h 2234 then MacBookPro16
      else if equals w 3024 && equals h 1964 then MacBookPro14
      else if equals w 2560 && equals h 1600 then "MacBook Air M1"%string
      else if equals w 2880 && equals h 1864 then "MacBook Air M2"%string
      else "generic"%string
    else if Js.includes userAgent "Windows" then
      if Js.includes userAgent "Surface" then "Surface Pro 8"%string
      else "generic"%string
    else if Js.includes userAgent "iPad" then
      match w with
      | Some v => if (2048 <=? v)%Z then iPadPro else "generic"%string
      | None => "generic"%string
      end
    else "generic"%string in
  let profile :=
    match lookup (deviceProfiles self) deviceName with
    | Some p => Some p
    | None => lookup (deviceProfiles self) "generic"
    end in
  match profile with
  | Some (m, s) => {| name := deviceName; pressureMultiplier := m; sensitivity := s |}
  | None =>
      (* no profile at all: the spread copies nothing, the fields are undefined *)
      {| name := deviceName; pressureMultiplier := nan; sensitivity := nan |}
  end.

(** *** The five analyses *)

Record PressureCharacteristics := {
  maxPressure : float;
  avgPressure : float;
  variance : float;
  naturalness : float;
  hasGradualIncrease : bool;
  hasNaturalRelease : bool;
  smoothnessScore : float
}.

Record PressureAnalysis := {
  pressure_score : float;
  pressure_characteristics : option PressureCharacteristics
}.

Definition inRange (r : Range) (v : float) : bool := (min r <=? v) && (v <=? max r).

Definition analyzePressurePattern (self : HumanPatternAnalyzer)
    (pressureData : list PressureSample) (deviceProfile : DeviceProfile)
  : PressureAnalysis :=
  let pressures := map pressureOf pressureData in
  match pressures with
  | [] => {| pressure_score := 0; pressure_characteristics := None |}
  | _ =>
      let calibratedPressures :=
        map (fun p => p * pressureMultiplier deviceProfile) pressures in
      let characteristics := {|
        maxPressure := Js.Math_max calibratedPressures;
        avgPressure := Js.sum calibratedPressures / Js.length calibratedPressures;
        variance := calculateVariance calibratedPressures;
        naturalness := calculateNaturalness calibratedPressures;
        hasGradualIncrease := hasGradualPressureIncrease calibratedPressures;
        hasNaturalRelease := hasNaturalPressureRelease calibratedPressures;
        smoothnessScore := calculateSmoothness calibratedPressures
      |} in
      let score := 0 in
      let score :=
        if inRange (pressureVariance (patterns self)) (variance characteristics)
        then score + 0.25 else score in
      let score :=
        if min (naturalRhythm (patterns self)) <=? naturalness characteristics
        then score + 0.25 else score in
      let score := if hasGradualIncrease characteristics then score + 0.2 else score in
      let score := if hasNaturalRelease characteristics then score + 0.2 else score in
      let score :=
        if (0.3 <? smoothnessScore characteristics)
           && (smoothnessScore characteristics <? 0.9)
        then score + 0.1 else score in
      {| pressure_score := score; pressure_characteristics := Some characteristics |}
  end.

Record TimingCharacteristics := {
  avgInterval : float;
  intervalVariance : float;
  rhythmicity : float;
  totalDuration : float;
  hasNaturalTiming : bool
}.

Record TimingAnalysis := {
  timing_score : float;
  timing_characteristics : option TimingCharacteristics
}.

(** [timestamps[i] - timestamps[i-1]] for [i = 1 .. length-1]. *)
Fixpoint differences (ts : list float) : list float :=
  match ts with
  | prev :: ((cur :: _) as rest) => (cur - prev) :: differences rest
  | _ => []
  end.

Definition analyzeTimingPattern (self : HumanPatternAnalyzer)
    (pressureData : list PressureSample) : TimingAnalysis :=
  let timestamps := map timestamp pressureData in
  match timestamps with
  | [] | [_] => {| timing_score := 0; timing_characteristics := None |}
  | first :: _ =>
      let intervals := differences timestamps in
      let intervalVariance := calculateVariance intervals in
      let rhythmicity := calculateRhythmicity intervals in
      let characteristics := {|
        avgInterval := Js.sum intervals / Js.length intervals;
        intervalVariance := intervalVariance;
        rhythmicity := rhythmicity;
        totalDuration := List.last timestamps first - first;
        hasNaturalTiming := (0.05 <? intervalVariance) && (intervalVariance <? 0.5)
      |} in
      let score := 0 in
      let score :=
        if inRange (timingIrregularity (patterns self)) intervalVariance
        then score + 0.4 else score in
      let score :=
        if (500 <? totalDuration characteristics)
           && (totalDuration characteristics <? 15000)
        then score + 0.3 else score in
      let score :=
        if inRange (naturalRhythm (patterns self)) rhythmicity
        then score + 0.3 else score in
      {| timing_score := score; timing_characteristics := Some characteristics |}
  end.

Record MotionCharacteristics := {
  avgMagnitude : float;
  motionVariance : float;
  hasSubtleMovement : bool;
  hasNaturalVariation : bool
}.

(** [characteristics = None] stands for [{ available: false }]. *)
Record MotionAnalysis := {
  motion_score : float;
  motion_characteristics : option MotionCharacteristics
}.

(** [Math.sqrt(a.x * a.x + a.y * a.y + a.z * a.z)] with
    [a.x = d.acceleration?.x || 0] and so on. *)
Definition motionMagnitudeOf (d : MotionSample) : float :=
  let x := Js.opt_or (option_map acc_x (acceleration d)) 0 in
  let y := Js.opt_or (option_map acc_y (acceleration d)) 0 in
  let z := Js.opt_or (option_map acc_z (acceleration d)) 0 in
  sqrt (x * x + y * y + z * z).

Definition analyzeMotionPattern (motionData : list MotionSample) : MotionAnalysis :=
  match motionData with
  | [] => {| motion_score := 0.5; motion_characteristics := None |}
  | _ =>
      let motionMagnitude := map motionMagnitudeOf motionData in
      let avgMagnitude := Js.sum motionMagnitude / Js.length motionMagnitude in
      let motionVariance := calculateVariance motionMagnitude in
      let characteristics := {|
        avgMagnitude := avgMagnitude;
        motionVariance := motionVariance;
        hasSubtleMovement := (0.01 <? avgMagnitude) && (avgMagnitude <? 0.5);
        hasNaturalVariation := (0.001 <? motionVariance) && (motionVariance <? 0.1)
      |} in
      let score := 0.5 in
      let score := if hasSubtleMovement characteristics then score + 0.2 else score in
      let score := if hasNaturalVariation characteristics then score + 0.2 else score in
      let score := if motionVariance <? 0.0001 then score - 0.3 else score in
      {| motion_score := score; motion_characteristics := Some characteristics |}
  end.

Record DeviceCharacteristics := {
  dc_userAgent : string;
  dc_screen : option Screen;
  dc_trackpadType : string;
  dc_browserSupport : list string
}.

Record DeviceAnalysis := {
  device_score : float;
  device_characteristics : DeviceCharacteristics
}.

(** [s || 'unknown'] on an optional string: the empty string is falsy. *)
Definition str_or (o : option string) (d : string) : string :=
  match o with
  | Some EmptyString | None => d
  | Some s => s
  end.

(** [screen.width && screen.height && width > 800 && ...] *)
Definition reasonableScreen (s : option Screen) : bool :=
  match s with
  | Some {| width := Some w; height := Some h |} =>
      negb (w =? 0)%Z && negb (h =? 0)%Z
      && (800 <? w)%Z && (600 <? h)%Z && (w <? 8000)%Z && (h <? 8000)%Z
  | _ => false
  end.

Definition analyzeDeviceCharacteristics (deviceInfo : DeviceInfo) : DeviceAnalysis :=
  let characteristics := {|
    dc_userAgent := userAgentOf deviceInfo;
    dc_screen := screen deviceInfo;
    dc_trackpadType := str_or (trackpadType deviceInfo) "unknown";
    dc_browserSupport :=
      match browserSupport deviceInfo with Some l => l | None => [] end
  |} in
  let score := 0.5 in
  let score :=
    if negb (String.eqb (dc_trackpadType characteristics) "unknown")
       && negb (String.eqb (dc_trackpadType characteristics) "generic")
    then score + 0.2 else score in
  let score :=
    if Js.includes (dc_userAgent characteristics) "Macintosh"
       || Js.includes (dc_userAgent characteristics) "Windows"
       || Js.includes (dc_userAgent characteristics) "iPad"
    then score + 0.2 else score in
  let score :=
    if reasonableScreen (dc_screen characteristics) then score + 0.1 else score in
  {| device_score := score; device_characteristics := characteristics |}.

Record BiometricCharacteristics := {
  pressureSignature : list float;
  motionSignature : list float;
  uniqueness : float;
  complexity : float
}.

Record BiometricAnalysis := {
  biometric_score : float;
  biometric_characteristics : BiometricCharacteristics
}.

Definition analyzeBiometricSignature
    (pressureData : list PressureSample) (motionData : list MotionSample)
  : BiometricAnalysis :=
  let pressureSignature := createPressureSignature pressureData in
  let motionSignature := createMotionSignature motionData in
  let characteristics := {|
    pressureSignature := pressureSignature;
    motionSignature := motionSignature;
    uniqueness := calculateUniqueness pressureSignature motionSignature;
    complexity := calculateComplexity pressureData motionData
  |} in
  let score := 0.5 in
  let score := if 0.3 <? complexity characteristics then score + 0.3 else score in
  let score :=
    if (0.2 <? uniqueness characteristics) && (uniqueness characteristics <? 0.8)
    then score + 0.2 else score in
  {| biometric_score := score; biometric_characteristics := characteristics |}.

(** *** Composite confidence and the decision *)

Record Analyses := {
  on_pressure : PressureAnalysis;
  on_timing : TimingAnalysis;
  on_motion : MotionAnalysis;
  on_device : DeviceAnalysis;
  on_biometric : BiometricAnalysis
}.

(** [Object.entries(analyses)] as [(score, weights[type])], in insertion
    order; every score is a number, so no entry is skipped. *)
Definition weightedEntries (analyses : Analyses) : list (float * float) :=
  [ (pressure_score (on_pressure analyses), 0.35);
    (timing_score (on_timing analyses), 0.25);
    (motion_score (on_motion analyses), 0.15);
    (device_score (on_device analyses), 0.10);
    (biometric_score (on_biometric analyses), 0.15) ].

Definition calculateCompositeConfidence (analyses : Analyses) : float :=
  let entries := weightedEntries analyses in
  let weightedSum := fold_left (fun acc e => acc + fst e * snd e) entries 0 in
  let totalWeight := fold_left (fun acc e => acc + snd e) entries 0 in
  if 0 <? totalWeight then weightedSum / totalWeight else 0.

Record Composite := {
  baseConfidence : float;
  adjustedConfidence : float;
  browserBoost : float
}.

Record Analysis := {
  analyses : Analyses;
  composite : Composite
}.

(** What [analyzePattern] returns; the fields that a branch does not set
    are [None].  [at_time] is [new Date().toISOString()], kept as the
    instant it denotes. *)
Record AnalysisResult := {
  isHuman : bool;
  confidence : float;
  reason : option string;
  usedMethod : option DetectionMethod;
  deviceProfile : option string;
  analysis : option Analysis;
  at_time : option Z
}.

Definition insufficient : AnalysisResult := {|
  isHuman := false; confidence := 0;
  reason := Some "Insufficient pressure data"%string;
  usedMethod := None; deviceProfile := None; analysis := None; at_time := None
|}.

(** The result of the [catch] branch. *)
Definition analysisError : AnalysisResult := {|
  isHuman := false; confidence := 0;
  reason := Some "Analysis error"%string;
  usedMethod := None; deviceProfile := None; analysis := None; at_time := None
|}.

(** [analyzePattern(verificationData)] on the instance [self], with [now]
    the reading of the clock.  The samples are well-typed records, so the
    only expression of the [try] block that can throw is
    [browserPattern.confidenceBoost], on an instance without any browser
    pattern for the method nor for [pointerEvents]. *)
Definition analyzePattern (self : HumanPatternAnalyzer) (now : Z)
    (verificationData : VerificationData) : AnalysisResult :=
  let pressureData := pressureData verificationData in
  let deviceInfo := deviceInfo verificationData in
  let detectionMethod := detectionMethod verificationData in
  let motionData := motionData verificationData in
  if (List.length pressureData <? 5)%nat then insufficient
  else
    let deviceProfile := getDeviceProfile self deviceInfo in
    let browserPattern :=
      match browserPatterns self detectionMethod with
      | Some p => Some p
      | None => browserPatterns self pointerEvents
      end in
    let analyses := {|
      on_pressure := analyzePressurePattern self pressureData deviceProfile;
      on_timing := analyzeTimingPattern self pressureData;
      on_motion := analyzeMotionPattern motionData;
      on_device := analyzeDeviceCharacteristics deviceInfo;
      on_biometric := analyzeBiometricSignature pressureData motionData
    |} in
    let baseConfidence := calculateCompositeConfidence analyses in
    match browserPattern with
    | None => analysisError
    | Some browserPattern =>
        let adjustedConfidence :=
          Js.min2 1.0 (baseConfidence + confidenceBoost browserPattern) in
        let isHuman := 0.65 <=? adjustedConfidence in
        {| isHuman := isHuman;
           confidence := adjustedConfidence;
           reason := None;
           usedMethod := Some detectionMethod;
           deviceProfile := Some (name deviceProfile);
           analysis := Some {|
             analyses := analyses;
             composite := {|
               baseConfidence := baseConfidence;
               adjustedConfidence := adjustedConfidence;
               browserBoost := confidenceBoost browserPattern
             |}
           |};
           at_time := Some now |}
    end.

End Analyzer.

(** ** utils/humanPatternAnalyzer.js

    The analyzer that scores a series by challenge type. *)

Module UtilsAnalyzer.

(** The environment variables read by the constructor, after [parseFloat]
    and [parseInt]; [None] is an unset or unparsable variable (NaN). *)
Record Env := {
  PRESSURE_VARIANCE_THRESHOLD : option float;
  MIN_PRESSURE_SAMPLES : option Z;
  HUMAN_PATTERN_CONFIDENCE_THRESHOLD : option float
}.

Record Thresholds := {
  minVariance : float;
  minSamples : Z;
  confidenceThreshold : float;
  maxPressure : float;
  minPressure : float
}.

Record HumanPatternAnalyzer := { thresholds : Thresholds }.

Definition constructor (env : Env) : HumanPatternAnalyzer := {|
  thresholds := {|
    minVariance := Js.opt_or (PRESSURE_VARIANCE_THRESHOLD env) 0.15;
    minSamples :=
      match MIN_PRESSURE_SAMPLES env with
      | Some 0%Z | None => 50%Z
      | Some n => n
      end;
    confidenceThreshold := Js.opt_or (HUMAN_PATTERN_CONFIDENCE_THRESHOLD env) 0.8;
    maxPressure := 100.0;
    minPressure := 0.5
  |}
|}.

(** No variable set. *)
Definition defaultEnv : Env := {|
  PRESSURE_VARIANCE_THRESHOLD := None;
  MIN_PRESSURE_SAMPLES := None;
  HUMAN_PATTERN_CONFIDENCE_THRESHOLD := None
|}.

Record Challenge := { type : ChallengeType }.

(** *** Statistics *)

Record Statistics := {
  mean : float;
  variance : float;
  standardDeviation : float;
  min : float;
  max : float;
  range : float;
  coefficientOfVariation : float
}.

Definition calculateStatistics (pressures : list float) : Statistics :=
  let mean := Js.sum pressures / Js.length pressures in
  let variance :=
    fold_left (fun sum p => sum + Js.sq (p - mean)) pressures 0
    / Js.length pressures in
  let stdDev := sqrt variance in
  let min := Js.Math_min pressures in
  let max := Js.Math_max pressures in
  {| mean := mean;
     variance := variance;
     standardDeviation := stdDev;
     min := min;
     max := max;
     range := max - min;
     coefficientOfVariation := stdDev / mean |}.

(** The sums of [checkLinearity] that run over the index [x[i] = i]
    together with the value. *)
Fixpoint xySum (i : float) (values : list float) (sum : float) : float :=
  match values with
  | [] => sum
  | v :: rest => xySum (i + 1) rest (sum + i * v)
  end.

Fixpoint ssRes (slope intercept i : float) (values : list float) (sum : float) : float :=
  match values with
  | [] => sum
  | val :: rest =>
      let predicted := slope * i + intercept in
      ssRes slope intercept (i + 1) rest (sum + Js.sq (val - predicted))
  end.

Definition checkLinearity (values : list float) : float :=
  let n := Js.length values in
  let x := Js.indices 0 (List.length values) in
  let xSum := Js.sum x in
  let ySum := Js.sum values in
  let xySum := xySum 0 values 0 in
  let x2Sum := fold_left (fun sum val => sum + val * val) x 0 in
  let slope := (n * xySum - xSum * ySum) / (n * x2Sum - xSum * xSum) in
  let intercept := (ySum - slope * xSum) / n in
  let yMean := ySum / n in
  let ssRes := ssRes slope intercept 0 values 0 in
  let ssTot := fold_left (fun sum val => sum + Js.sq (val - yMean)) values 0 in
  1 - ssRes / ssTot.

(** *** Scores of the pressure pattern *)

Definition analyzeVariance (pressures : list float) : float :=
  let stats := calculateStatistics pressures in
  let cv := coefficientOfVariation stats in
  if cv <? 0.05 then 0.2
  else if 0.5 <? cv then 0.3
  else if (0.1 <=? cv) && (cv <=? 0.3) then 0.9
  else 0.6.

(** [timestamps[i] - timestamps[i - 1]] for [i = 1 .. length-1]. *)
Fixpoint differences (ts : list float) : list float :=
  match ts with
  | prev :: ((cur :: _) as rest) => (cur - prev) :: differences rest
  | _ => []
  end.

Definition analyzeTimingPatterns (timestamps : list float) : float :=
  if (List.length timestamps <? 2)%nat then 0.5
  else
    let intervals := differences timestamps in
    let stats := calculateStatistics intervals in
    let cv := coefficientOfVariation stats in
    if cv <? 0.1 then 0.2
    else if 1.0 <? cv then 0.3
    else Js.min2 0.9 (cv * 2).

(** Membership in a [Set]: SameValueZero, under which NaN equals NaN and
    the two zeros are equal. *)
Definition sameValueZero (a b : float) : bool := (a =? b) || (is_nan a && is_nan b).

(** The members of [new Set(values)], in insertion order. *)
Fixpoint newSet (values : list float) (members : list float) : list float :=
  match values with
  | [] => members
  | v :: rest =>
      if existsb (sameValueZero v) members then newSet rest members
      else newSet rest (members ++ [v])
  end.

Definition analyzeNaturalness (pressures : list float) : float :=
  let naturalScore := 1.0 in
  let uniqueValues := newSet pressures [] in
  let uniqueRatio := Js.length uniqueValues / Js.length pressures in
  let naturalScore := if uniqueRatio <? 0.7 then naturalScore * 0.5 else naturalScore in
  let linearityScore := checkLinearity pressures in
  let naturalScore := if 0.9 <? linearityScore then naturalScore * 0.4 else naturalScore in
  Js.max2 0.1 naturalScore.

Definition analyzePressureRange (self : HumanPatternAnalyzer) (pressures : list float)
  : float :=
  let min := Js.Math_min pressures in
  let max := Js.Math_max pressures in
  if (min <? minPressure (thresholds self)) || (maxPressure (thresholds self) <? max)
  then 0.3
  else 0.8.

(** *** Scores of the rhythm test *)

Record TapStart := {
  startTime : float;
  startPressure : float;
  tap_maxPressure : float;
  maxTime : float
}.

Record Tap := {
  tap_start : TapStart;
  endTime : float;
  duration : float
}.

(** The loop of [detectTaps]: [tapStart] is [Some] exactly while [inTap]. *)
Fixpoint detectTapsLoop (pressureData : list PressureSample)
    (tapStart : option TapStart) (taps : list Tap) : list Tap :=
  match pressureData with
  | [] => taps
  | sample :: rest =>
      let pressureThreshold := 2.0 in
      match tapStart with
      | None =>
          if pressureThreshold <? pressure sample then
            detectTapsLoop rest
              (Some {| startTime := timestamp sample;
                       startPressure := pressure sample;
                       tap_maxPressure := pressure sample;
                       maxTime := timestamp sample |})
              taps
          else detectTapsLoop rest None taps
      | Some ts =>
          if tap_maxPressure ts <? pressure sample then
            detectTapsLoop rest
              (Some {| startTime := startTime ts;
                       startPressure := startPressure ts;
                       tap_maxPressure := pressure sample;
                       maxTime := timestamp sample |})
              taps
          else if pressure sample <=? pressureThreshold then
            detectTapsLoop rest None
              (taps ++ [ {| tap_start := ts;
                            endTime := timestamp sample;
                            duration := timestamp sample - startTime ts |} ])
          else detectTapsLoop rest tapStart taps
      end
  end.

Definition detectTaps (pressureData : list PressureSample) : list Tap :=
  detectTapsLoop pressureData None [].

Definition tapIntervals (taps : list Tap) : list float :=
  differences (map (fun t => startTime (tap_start t)) taps).

Definition analyzeRhythm (taps : list Tap) : float :=
  if (List.length taps <? 2)%nat then 0.5
  else
    let stats := calculateStatistics (tapIntervals taps) in
    let cv := coefficientOfVariation stats in
    if (0.1 <? cv) && (cv <? 0.5) then 0.8 else 0.4.

Definition analyzeHumanTiming (taps : list Tap) : float :=
  let intervals := tapIntervals taps in
  if (List.length intervals <? 2)%nat then 0.5
  else
    let stats := calculateStatistics intervals in
    let cv := coefficientOfVariation stats in
    if (0.15 <=? cv) && (cv <=? 0.4) then 0.9 else 0.4.

(** *** Scores of the sustained pressure *)

Definition analyzeStability (pressures : list float) : float :=
  let stats := calculateStatistics pressures in
  let cv := coefficientOfVariation stats in
  if cv <? 0.05 then 0.3
  else if 0.3 <? cv then 0.4
  else 0.8.

Fixpoint distances (positions : list Position) : list float :=
  match positions with
  | prev :: ((cur :: _) as rest) =>
      let dx := pos_x cur - pos_x prev in
      let dy := pos_y cur - pos_y prev in
      sqrt (dx * dx + dy * dy) :: distances rest
  | _ => []
  end.

(** [pressureData.filter(d => d.position).map(d => d.position)] *)
Fixpoint positionsOf (pressureData : list PressureSample) : list Position :=
  match pressureData with
  | [] => []
  | d :: rest =>
      match position d with
      | Some p => p :: positionsOf rest
      | None => positionsOf rest
      end
  end.

Definition analyzeMovement (pressureData : list PressureSample) : float :=
  let hasPosition :=
    existsb (fun d => match position d with Some _ => true | None => false end)
      pressureData in
  if negb hasPosition then 0.6
  else
    let stats := calculateStatistics (distances (positionsOf pressureData)) in
    if 0.2 <? coefficientOfVariation stats then 0.8 else 0.5.

Definition analyzeFluctuations (pressures : list float) : float :=
  let fluctuations := map abs (differences pressures) in
  let stats := calculateStatistics fluctuations in
  if (0.1 <? mean stats) && (mean stats <? 2.0) then 0.8 else 0.4.

(** *** Scores of the progressive pressure *)

(** [a.slice(-k)]: the last [k] elements, and the whole array for [k = 0]
    (since [-0] is [0]). *)
Definition sliceLast {A} (k : nat) (a : list A) : list A :=
  skipn (List.length a - k) a.

Definition analyzeProgression (pressures : list float) : float :=
  let quarter := (List.length pressures / 4)%nat in
  let firstQuarter := firstn quarter pressures in
  let lastQuarter :=
    match quarter with O => pressures | _ => sliceLast quarter pressures end in
  let firstAvg := Js.sum firstQuarter / Js.length firstQuarter in
  let lastAvg := Js.sum lastQuarter / Js.length lastQuarter in
  let ratio := lastAvg / firstAvg in
  if 2.0 <=? ratio then 0.9 else if 1.5 <=? ratio then 0.6 else 0.3.

Definition analyzeProgressionSmoothness (pressures : list float) : float :=
  let rates := differences pressures in
  let positiveRates := filter (fun r => 0 <? r) rates in
  let smoothnessRatio := Js.length positiveRates / Js.length rates in
  if 0.7 <=? smoothnessRatio then 0.8 else 0.4.

Definition analyzeFinalPressure (pressures : list float) : float :=
  let maxPressure := Js.Math_max pressures in
  (* on the empty array the last element is undefined, a NaN in the division *)
  let finalPressure := List.last pressures nan in
  let ratio := finalPressure / maxPressure in
  if 0.8 <=? ratio then 0.9 else 0.5.

(** *** Analysis by challenge type *)

(** The part of the analysis record that the confidence is computed
    from: the type tag and the named scores, in insertion order.  (The
    other fields of the record repeat these scores, the statistics and
    the taps.) *)
Record TypedAnalysis := {
  analysisType : ChallengeType;
  scores : list (string * float)
}.

Definition analyzePressurePattern (self : HumanPatternAnalyzer)
    (pressureData : list PressureSample) : TypedAnalysis :=
  let pressures := map pressure pressureData in
  let timestamps := map timestamp pressureData in
  {| analysisType := pressure_pattern;
     scores :=
       [ ("variance"%string, analyzeVariance pressures);
         ("timing"%string, analyzeTimingPatterns timestamps);
         ("naturalness"%string, analyzeNaturalness pressures);
         ("range"%string, analyzePressureRange self pressures) ] |}.

Definition analyzeRhythmTest (pressureData : list PressureSample) : TypedAnalysis :=
  let taps := detectTaps pressureData in
  {| analysisType := rhythm_test;
     scores :=
       [ ("rhythm"%string, analyzeRhythm taps);
         ("humanTiming"%string, analyzeHumanTiming taps) ] |}.

Definition analyzeSustainedPressure (pressureData : list PressureSample)
  : TypedAnalysis :=
  let pressures := map pressure pressureData in
  {| analysisType := sustained_pressure;
     scores :=
       [ ("stability"%string, analyzeStability pressures);
         ("movement"%string, analyzeMovement pressureData);
         ("fluctuation"%string, analyzeFluctuations pressures) ] |}.

Definition analyzeProgressivePressure (pressureData : list PressureSample)
  : TypedAnalysis :=
  let pressures := map pressure pressureData in
  {| analysisType := progressive_pressure;
     scores :=
       [ ("progression"%string, analyzeProgression pressures);
         ("smoothness"%string, analyzeProgressionSmoothness pressures);
         ("finalPressure"%string, analyzeFinalPressure pressures) ] |}.

Definition analyzeByType (self : HumanPatternAnalyzer)
    (pressureData : list PressureSample) (challenge : Challenge) : TypedAnalysis :=
  match type challenge with
  | pressure_pattern => analyzePressurePattern self pressureData
  | rhythm_test => analyzeRhythmTest pressureData
  | sustained_pressure => analyzeSustainedPressure pressureData
  | progressive_pressure => analyzeProgressivePressure pressureData
  end.

(** [scores.name > bound], false when the score is absent. *)
Definition scoreAbove (scores : list (string * float)) (name : string) (bound : float)
  : bool :=
  match Analyzer.lookup scores name with
  | Some v => bound <? v
  | None => false
  end.

Definition calculateOverallConfidence (analysisResult : TypedAnalysis) : float :=
  let scores := scores analysisResult in
  let scoreValues := map snd scores in
  match scoreValues with
  | [] => 0.0
  | _ =>
      let average := Js.sum scoreValues / Js.length scoreValues in
      let adjustment :=
        match analysisType analysisResult with
        | pressure_pattern =>
            if scoreAbove scores "variance" 0.7 && scoreAbove scores "naturalness" 0.6
            then 1.1 else 1.0
        | rhythm_test =>
            if scoreAbove scores "humanTiming" 0.7 then 1.1 else 1.0
        | _ => 1.0
        end in
      Js.min2 1.0 (average * adjustment)
  end.

(** *** The entry point *)

Record Details := {
  details_reason : option string;
  typed : option TypedAnalysis;
  analysisTime : option Z;
  sampleCount : option nat
}.

Record Result := {
  isHuman : bool;
  confidence : float;
  details : Details
}.

Definition rejected (reason : string) (count : option nat) : Result := {|
  isHuman := false;
  confidence := 0.0;
  details := {| details_reason := Some reason; typed := None;
                analysisTime := None; sampleCount := count |}
|}.

(** [analyze(pressureData, challenge)]; [analysisStart] and [analysisEnd]
    are the two readings of [Date.now()].  The samples are well-typed
    records, so nothing in the [try] block throws. *)
Definition analyze (self : HumanPatternAnalyzer) (analysisStart analysisEnd : Z)
    (pressureData : list PressureSample) (challenge : Challenge) : Result :=
  if (Z.of_nat (List.length pressureData) <? minSamples (thresholds self))%Z then
    rejected "Insufficient pressure data" (Some (List.length pressureData))
  else
    let pressures := map pressure pressureData in
    match pressures with
    | [] => rejected "No valid pressure readings" None
    | _ =>
        let analysisResult := analyzeByType self pressureData challenge in
        let overallConfidence := calculateOverallConfidence analysisResult in
        {| isHuman := confidenceThreshold (thresholds self) <=? overallConfidence;
           confidence := overallConfidence;
           details := {|
             details_reason := None;
             typed := Some analysisResult;
             analysisTime := Some (analysisEnd - analysisStart)%Z;
             sampleCount := Some (List.length pressureData)
           |} |}
    end.

End UtilsAnalyzer.

(** ** Dates, JSON and the values of result objects *)

(** A date held in a record is a [Date] object or, once the record went
    through [JSON.stringify] and [JSON.parse], the ISO string of the same
    instant (milliseconds since the epoch): [JSON.parse] does not revive
    dates. *)
Inductive DateValue :=
| DateObject (ms : Z)
| IsoString (ms : Z).

Definition toJSON (d : DateValue) : DateValue :=
  match d with
  | DateObject ms | IsoString ms => IsoString ms
  end.

Definition instant (d : DateValue) : Z :=
  match d with
  | DateObject ms | IsoString ms => ms
  end.

(** [new Date() > d].  Both sides are converted to numbers; an ISO string
    converts to NaN and every comparison with NaN is false. *)
Definition nowIsAfter (now : Z) (d : DateValue) : bool :=
  match d with
  | DateObject ms => (ms <? now)%Z
  | IsoString _ => false
  end.

(** [Math.max(0, Math.floor((d - new Date()) / 1000))]; [None] is NaN. *)
Definition secondsUntil (d : DateValue) (now : Z) : option Z :=
  match d with
  | DateObject ms => Some (Z.max 0 ((ms - now) / 1000))
  | IsoString _ => None
  end.

(** [ttl > 0] *)
Definition positive (ttl : option Z) : bool :=
  match ttl with
  | Some t => (0 <? t)%Z
  | None => false
  end.

(** A number after [JSON.stringify] and [JSON.parse]: NaN and the
    infinities become [null] ([None]), [-0] becomes [0], every other
    number is read back as it was. *)
Definition jsonNumber (x : option float) : option float :=
  match x with
  | Some f =>
      if is_nan f || is_infinity f then None
      else if is_zero f then Some 0
      else Some f
  | None => None
  end.

Inductive JsValue :=
| JUndefined
| JNull
| JBool (b : bool)
| JNumber (f : float)
| JString (s : string)
| JDate (d : DateValue).

(** An object literal: its properties in the order they are written. *)
Definition JsObject := list (string * JsValue).

(** [obj.key]: [undefined] when the object has no such property. *)
Fixpoint property (obj : JsObject) (key : string) : JsValue :=
  match obj with
  | [] => JUndefined
  | (k, v) :: rest => if String.eqb k key then v else property rest key
  end.

Definition ofNumber (x : option float) : JsValue :=
  match x with Some f => JNumber f | None => JNull end.

(** ** The lifecycle: challengeService.js and verificationService.js *)

Module Lifecycle.

(** The environment variables that the two services read.  A variable
    parsed with [parseInt] is [None] when it is unset or unparsable;
    [JWT_EXPIRES_IN] is given in seconds. *)
Record Config := {
  CHALLENGE_EXPIRY_MINUTES : option Z;
  VERIFICATION_EXPIRY_MINUTES : option Z;
  JWT_SECRET : string;
  JWT_EXPIRES_IN : option Z
}.

(** [parseInt(v) || d] *)
Definition intOr (v : option Z) (d : Z) : Z :=
  match v with
  | Some 0%Z | None => d
  | Some n => n
  end.

Inductive Status := pending | processing | completed | failed | cancelled.

Definition Status_eqb (a b : Status) : bool :=
  match a, b with
  | pending, pending | processing, processing | completed, completed
  | failed, failed | cancelled, cancelled => true
  | _, _ => false
  end.

(** A challenge, as an object of the service and as a row of the table
    [challenges].  The instructions text, the metadata and the API key
    id are carried along and never read by the lifecycle; they are left
    out, and so is the write-only column [updated_at]. *)
Record Challenge := {
  id : string;
  type : ChallengeType;
  difficulty : Difficulty;
  duration : float;
  status : Status;
  createdAt : DateValue;
  expiresAt : DateValue
}.

Definition withStatus (c : Challenge) (s : Status) : Challenge := {|
  id := id c; type := type c; difficulty := difficulty c; duration := duration c;
  status := s; createdAt := createdAt c; expiresAt := expiresAt c
|}.

(** [JSON.parse(JSON.stringify(challenge))] *)
Definition jsonChallenge (c : Challenge) : Challenge := {|
  id := id c; type := type c; difficulty := difficulty c; duration := duration c;
  status := status c;
  createdAt := toJSON (createdAt c);
  expiresAt := toJSON (expiresAt c)
|}.

(** *** Tokens

    [jsonwebtoken] is modelled symbolically: a well-formed token is its
    claims together with the key it was signed with, and a signature
    verifies under that key only. *)
Record Claims := {
  claim_verificationId : string;
  claim_challengeId : string;
  claim_isHuman : bool;
  claim_confidence : option float;
  claim_processedAt : DateValue;
  iat : Z;
  exp : Z
}.

Inductive Token :=
| Signed (key : string) (claims : Claims)
| Malformed (text : string).

(** A verification, as an object of the service and as a row of the
    table [verifications].  [v_confidence] is [None] for a JSON [null].
    The analysis details, the client information and the stored excerpt
    of the raw data are carried along and never read by the lifecycle;
    they are left out. *)
Record Verification := {
  v_id : string;
  v_challengeId : string;
  v_status : Status;
  v_isHuman : bool;
  v_confidence : option float;
  v_detectionMethod : option DetectionMethod;
  v_deviceProfile : option string;
  v_submittedAt : DateValue;
  v_processedAt : DateValue;
  v_expiresAt : DateValue;
  v_token : option Token
}.

Definition withToken (v : Verification) (t : Token) : Verification := {|
  v_id := v_id v; v_challengeId := v_challengeId v; v_status := v_status v;
  v_isHuman := v_isHuman v; v_confidence := v_confidence v;
  v_detectionMethod := v_detectionMethod v; v_deviceProfile := v_deviceProfile v;
  v_submittedAt := v_submittedAt v; v_processedAt := v_processedAt v;
  v_expiresAt := v_expiresAt v; v_token := Some t
|}.

(** [JSON.parse(JSON.stringify(verification))] *)
Definition jsonVerification (v : Verification) : Verification := {|
  v_id := v_id v; v_challengeId := v_challengeId v; v_status := v_status v;
  v_isHuman := v_isHuman v;
  v_confidence := jsonNumber (v_confidence v);
  v_detectionMethod := v_detectionMethod v; v_deviceProfile := v_deviceProfile v;
  v_submittedAt := toJSON (v_submittedAt v);
  v_processedAt := toJSON (v_processedAt v);
  v_expiresAt := toJSON (v_expiresAt v);
  v_token := v_token v
|}.

(** The columns that [submitVerification] inserts and [getVerification]
    reads back: the detection method and the device profile are not
    among them. *)
Definition row (v : Verification) : Verification := {|
  v_id := v_id v; v_challengeId := v_challengeId v; v_status := v_status v;
  v_isHuman := v_isHuman v; v_confidence := v_confidence v;
  v_detectionMethod := None; v_deviceProfile := None;
  v_submittedAt := v_submittedAt v; v_processedAt := v_processedAt v;
  v_expiresAt := v_expiresAt v; v_token := v_token v
|}.

Record PressureRow := {
  pr_id : string;
  pr_verificationId : string;
  pr_challengeId : string;
  pr_samples : list PressureSample;
  pr_sampleCount : nat
}.

(** *** The stores

    The database is a list of rows per table, in insertion order.  Redis
    is a finite map from keys to a value and the instant at which the
    key expires; the keys [challenge:<id>] and [verification:<id>] live
    in two maps indexed by the id, and a stored value is the object that
    [JSON.parse] reads back from the stored string. *)
Record State := {
  challenges : list Challenge;
  verifications : list Verification;
  pressure_data : list PressureRow;
  challengeCache : gmap string (Challenge * Z);
  verificationCache : gmap string (Verification * Z)
}.

Definition initial : State := {|
  challenges := []; verifications := []; pressure_data := [];
  challengeCache := ∅; verificationCache := ∅
|}.

(** *** Computations: state passing with exceptions *)

Inductive Error :=
| ChallengeNotFound      (* Error('Challenge not found') *)
| ChallengeNotPending    (* Error('Challenge is not in pending state') *)
| ChallengeExpired       (* Error('Challenge has expired') *)
| SecretMissing.         (* jsonwebtoken: secretOrPrivateKey must have a value *)

Inductive Outcome (A : Type) :=
| Returned (a : A)
| Thrown (e : Error).
Arguments Returned {A} a.
Arguments Thrown {A} e.

Definition M (A : Type) : Type := State -> Outcome A * State.

Definition ret {A} (a : A) : M A := fun st => (Returned a, st).

Definition throw {A} (e : Error) : M A := fun st => (Thrown e, st).

Definition bind {A B} (c : M A) (k : A -> M B) : M B :=
  fun st =>
    match c st with
    | (Returned a, st') => k a st'
    | (Thrown e, st') => (Thrown e, st')
    end.

(** [try { body } catch (error) { handler }]: the writes of the body
    before the exception stay. *)
Definition tryCatch {A} (body : M A) (handler : Error -> M A) : M A :=
  fun st =>
    match body st with
    | (Returned a, st') => (Returned a, st')
    | (Thrown e, st') => handler e st'
    end.

Definition modify (f : State -> State) : M unit := fun st => (Returned tt, f st).

Definition gets {A} (f : State -> A) : M A := fun st => (Returned (f st), st).

Declare Scope lifecycle_scope.
Delimit Scope lifecycle_scope with M.
Notation "x <- c ;; k" := (bind c (fun x => k))
  (at level 100, c at next level, right associativity) : lifecycle_scope.
Notation "c ;; k" := (bind c (fun _ => k))
  (at level 100, right associativity) : lifecycle_scope.
#[local] Open Scope lifecycle_scope.

(** *** Redis *)

(** [redisClient.get(key)]: an expired key is gone. *)
Definition cached {A} (cache : gmap string (A * Z)) (now : Z) (key : string) : option A :=
  match cache !! key with
  | Some (value, expiry) => if (now <? expiry)%Z then Some value else None
  | None => None
  end.

(** [redisClient.setEx(key, seconds, value)].  Redis refuses an expire
    time that is not positive; the wrapper logs the error and goes on. *)
Definition setEx {A} (cache : gmap string (A * Z)) (now : Z)
    (key : string) (seconds : Z) (value : A) : gmap string (A * Z) :=
  if (0 <? seconds)%Z
  then <[ key := (value, (now + seconds * 1000)%Z) ]> cache
  else cache.

Definition cacheChallenge (now : Z) (seconds : Z) (c : Challenge) : M unit :=
  modify (fun st => {|
    challenges := challenges st;
    verifications := verifications st;
    pressure_data := pressure_data st;
    challengeCache := setEx (challengeCache st) now (id c) seconds (jsonChallenge c);
    verificationCache := verificationCache st
  |}).

Definition uncacheChallenge (challengeId : string) : M unit :=
  modify (fun st => {|
    challenges := challenges st;
    verifications := verifications st;
    pressure_data := pressure_data st;
    challengeCache := delete challengeId (challengeCache st);
    verificationCache := verificationCache st
  |}).

Definition cacheVerification (now : Z) (seconds : Z) (v : Verification) : M unit :=
  modify (fun st => {|
    challenges := challenges st;
    verifications := verifications st;
    pressure_data := pressure_data st;
    challengeCache := challengeCache st;
    verificationCache :=
      setEx (verificationCache st) now (v_id v) seconds (jsonVerification v)
  |}).

(** *** The database *)

Definition setChallenges (rows : list Challenge) (st : State) : State := {|
  challenges := rows;
  verifications := verifications st;
  pressure_data := pressure_data st;
  challengeCache := challengeCache st;
  verificationCache := verificationCache st
|}.

(** [database('challenges').insert(row)] *)
Definition insertChallenge (c : Challenge) : M unit :=
  modify (fun st => setChallenges (challenges st ++ [c]) st).

(** [database('challenges').where('id', id).update({ status, ... })];
    the result is the number of rows updated. *)
Definition updateStatus (challengeId : string) (s : Status) : M nat :=
  fun st =>
    let hit := fun c : Challenge => String.eqb (id c) challengeId in
    (Returned (List.length (filter hit (challenges st))),
     setChallenges
       (map (fun c => if hit c then withStatus c s else c) (challenges st)) st).

(** [database('challenges').select('*').where('id', id).limit(1)] *)
Definition selectChallenge (challengeId : string) : M (option Challenge) :=
  gets (fun st => find (fun c => String.eqb (id c) challengeId) (challenges st)).

Definition insertVerification (v : Verification) : M unit :=
  modify (fun st => {|
    challenges := challenges st;
    verifications := verifications st ++ [row v];
    pressure_data := pressure_data st;
    challengeCache := challengeCache st;
    verificationCache := verificationCache st
  |}).

Definition selectVerification (verificationId : string) : M (option Verification) :=
  gets (fun st =>
          find (fun v => String.eqb (v_id v) verificationId) (verifications st)).

Definition insertPressureData (r : PressureRow) : M unit :=
  modify (fun st => {|
    challenges := challenges st;
    verifications := verifications st;
    pressure_data := pressure_data st ++ [r];
    challengeCache := challengeCache st;
    verificationCache := verificationCache st
  |}).

(** *** ChallengeService
    Every operation is given the reading [now] of the clock at which it
    runs, and the identifiers that [uuidv4()] draws for it. *)

(** [this.challengeTypes[type].defaultDuration] *)
Definition defaultDuration (t : ChallengeType) : float :=
  match t with
  | pressure_pattern => 5
  | rhythm_test => 8
  | sustained_pressure => 10
  | progressive_pressure => 7
  end.

Definition createChallenge (cfg : Config) (now : Z) (challengeId : string)
    (type : ChallengeType) (difficulty : Difficulty) (duration : option float)
  : M Challenge :=
  let expiryMinutes := intOr (CHALLENGE_EXPIRY_MINUTES cfg) 5 in
  let expiresAt := DateObject (now + expiryMinutes * 60 * 1000) in
  let challenge := {|
    id := challengeId;
    type := type;
    difficulty := difficulty;
    duration := Js.opt_or duration (defaultDuration type);
    status := pending;
    createdAt := DateObject now;
    expiresAt := expiresAt
  |} in
  insertChallenge challenge ;;
  cacheChallenge now (expiryMinutes * 60) challenge ;;
  ret challenge.

Definition getChallenge (now : Z) (challengeId : string) : M (option Challenge) :=
  fromCache <- gets (fun st => cached (challengeCache st) now challengeId) ;;
  match fromCache with
  | Some challenge => ret (Some challenge)
  | None =>
      rows <- selectChallenge challengeId ;;
      match rows with
      | None => ret None
      | Some challenge =>
          let ttl := secondsUntil (expiresAt challenge) now in
          (if positive ttl
           then cacheChallenge now (default 0%Z ttl) challenge
           else ret tt) ;;
          ret (Some challenge)
      end
  end.


Definition updateChallengeStatus (now : Z) (challengeId : string) (s : Status)
  : M unit :=
  updateStatus challengeId s ;;
  found <- getChallenge now challengeId ;;
  match found with
  | Some challenge =>
      let challenge := withStatus challenge s in
      let ttl := secondsUntil (expiresAt challenge) now in
      if positive ttl
      then cacheChallenge now (default 0%Z ttl) challenge
      else ret tt
  | None => ret tt
  end.

(** *** jsonwebtoken *)

(** [jwt.sign(payload, secret, { expiresIn })]: the payload is
    serialised as JSON, [iat] and [exp] are in seconds. *)
Definition jwt_sign (now : Z) (secret : string) (expiresIn : Z)
    (verificationId challengeId : string) (isHuman : bool)
    (confidence : option float) (processedAt : DateValue) : M Token :=
  match secret with
  | EmptyString => throw SecretMissing
  | _ =>
      ret (Signed secret {|
        claim_verificationId := verificationId;
        claim_challengeId := challengeId;
        claim_isHuman := isHuman;
        claim_confidence := jsonNumber confidence;
        claim_processedAt := toJSON processedAt;
        iat := (now / 1000)%Z;
        exp := (now / 1000 + expiresIn)%Z
      |})
  end.

(** [jwt.verify(token, secret)]: [None] when it throws (no secret, a
    malformed token, a signature made with another key, or a token whose
    [exp] has been reached). *)
Definition jwt_verify (now : Z) (secret : string) (token : Token) : option Claims :=
  match secret, token with
  | EmptyString, _ => None
  | _, Malformed _ => None
  | _, Signed key claims =>
      if String.eqb key secret && (now / 1000 <? exp claims)%Z
      then Some claims
      else None
  end.

(** *** VerificationService *)

(** The argument of [submitVerification], as the route hands it over:
    [pressureData] is required by the request schema, the other parts
    are optional. *)
Record Submission := {
  s_challengeId : string;
  s_pressureData : list PressureSample;
  s_motionData : option (list MotionSample);
  s_deviceInfo : option DeviceInfo;
  s_detectionMethod : option DetectionMethod
}.

Definition generateVerificationToken (cfg : Config) (now : Z)
    (verification : Verification) : M Token :=
  jwt_sign now (JWT_SECRET cfg) (default 86400%Z (JWT_EXPIRES_IN cfg))
    (v_id verification) (v_challengeId verification)
    (v_isHuman verification) (v_confidence verification)
    (v_processedAt verification).

(** [this.analyzer], built once by the constructor of the service. *)
Definition analyzer : Analyzer.HumanPatternAnalyzer := Analyzer.constructor.

Definition submitVerification (cfg : Config) (now : Z)
    (verificationId pressureRowId : string) (submission : Submission)
  : M Verification :=
  let challengeId := s_challengeId submission in
  found <- getChallenge now challengeId ;;
  match found with
  | None => throw ChallengeNotFound
  | Some challenge =>
      if negb (Status_eqb (status challenge) pending) then throw ChallengeNotPending
      else if nowIsAfter now (expiresAt challenge) then throw ChallengeExpired
      else
        updateChallengeStatus now challengeId processing ;;
        tryCatch
          (let verificationData := {|
             pressureData := s_pressureData submission;
             motionData := default [] (s_motionData submission);
             deviceInfo := default emptyDeviceInfo (s_deviceInfo submission);
             detectionMethod := default unknown (s_detectionMethod submission);
             challengeType := type challenge;
             challengeDifficulty := difficulty challenge
           |} in
           let analysisResult := Analyzer.analyzePattern analyzer now verificationData in
           let verification := {|
             v_id := verificationId;
             v_challengeId := challengeId;
             v_status := completed;
             v_isHuman := Analyzer.isHuman analysisResult;
             v_confidence := Some (Analyzer.confidence analysisResult);
             v_detectionMethod := Analyzer.usedMethod analysisResult;
             v_deviceProfile := Analyzer.deviceProfile analysisResult;
             v_submittedAt := DateObject now;
             v_processedAt := DateObject now;
             v_expiresAt :=
               DateObject
                 (now + intOr (VERIFICATION_EXPIRY_MINUTES cfg) 30 * 60 * 1000);
             v_token := None
           |} in
           token <- generateVerificationToken cfg now verification ;;
           let verification := withToken verification token in
           insertVerification verification ;;
           insertPressureData {|
             pr_id := pressureRowId;
             pr_verificationId := v_id verification;
             pr_challengeId := v_challengeId verification;
             pr_samples := s_pressureData submission;
             pr_sampleCount := List.length (s_pressureData submission)
           |} ;;
           cacheVerification now (30 * 60) verification ;;
           updateChallengeStatus now challengeId completed ;;
           ret verification)
          (fun error =>
             updateChallengeStatus now challengeId failed ;;
             throw error)
  end.

Definition getVerification (now : Z) (verificationId : string)
  : M (option Verification) :=
  fromCache <- gets (fun st => cached (verificationCache st) now verificationId) ;;
  match fromCache with
  | Some verification => ret (Some verification)
  | None =>
      rows <- selectVerification verificationId ;;
      match rows with
      | None => ret None
      | Some verification =>
          let ttl := secondsUntil (v_expiresAt verification) now in
          (if positive ttl
           then cacheVerification now (default 0%Z ttl) verification
           else ret tt) ;;
          ret (Some verification)
      end
  end.

(** [{ valid: false }] *)
Definition invalid : JsObject := [ ("valid"%string, JBool false) ].

(** [validateToken(token)].  Nothing that it calls throws once the token
    is verified, so the [catch] branch is the failure of [jwt.verify]. *)
Definition validateToken (cfg : Config) (now : Z) (token : Token) : M JsObject :=
  match jwt_verify now (JWT_SECRET cfg) token with
  | None => ret invalid
  | Some decoded =>
      found <- getVerification now (claim_verificationId decoded) ;;
      match found with
      | None => ret invalid
      | Some verification =>
          if nowIsAfter now (v_expiresAt verification) then ret invalid
          else
            ret [ ("valid"%string, JBool true);
                  ("isHuman"%string, JBool (v_isHuman verification));
                  ("confidence"%string, ofNumber (v_confidence verification));
                  ("verifiedAt"%string, JDate (v_processedAt verification));
                  ("expiresAt"%string, JDate (v_expiresAt verification)) ]
      end
  end.

End Lifecycle.

(** ** The verification routes (routes/verification.js) and the request
    validation (middleware/validation.js) *)

Module Routes.

Import Lifecycle.
#[local] Open Scope lifecycle_scope.

(** The body of [POST /api/v1/verification/submit] once parsed, with
    unknown keys stripped.  [None] is an absent key. *)
Record SubmitBody := {
  challengeId : option string;
  body_pressureData : option (list PressureSample);
  body_motionData : option (list MotionSample);
  body_deviceInfo : option DeviceInfo;
  body_detectionMethod : option DetectionMethod
}.

(** A request after [authenticateApiKey]: [apiKey] is the id of the key
    that the middleware accepted, [None] when it answered 401. *)
Record Request (Body : Type) := {
  apiKey : option string;
  body : Body
}.
Arguments apiKey {Body} r.
Arguments body {Body} r.

Inductive Response :=
| Created (verification : Verification)          (* 201 *)
| Ok (data : JsObject)                           (* 200 *)
| ValidationFailed (details : list string)       (* 400, error: 'Validation failed' *)
| Unauthorized                                   (* 401 *)
| ServerError (e : Error).                       (* next(error) *)

(** [Joi.number()]: NaN and the infinities are refused. *)
Definition isNumber (x : float) : bool := negb (is_nan x || is_infinity x).

Definition optional {A} (rule : A -> bool) (x : option A) : bool :=
  match x with Some a => rule a | None => true end.

Definition validPressureItem (d : PressureSample) : bool :=
  isNumber (timestamp d)
  && (isNumber (pressure d) && (0 <=? pressure d) && (pressure d <=? 1))
  && optional (fun w => isNumber w && (0 <=? w)) (weight d)
  && optional (fun p => isNumber (pos_x p) && isNumber (pos_y p)) (position d).

Definition validMotionItem (d : MotionSample) : bool :=
  isNumber (motion_timestamp d)
  && optional (fun a => isNumber (acc_x a) && isNumber (acc_y a) && isNumber (acc_z a))
       (acceleration d).

Definition validDeviceInfo (d : DeviceInfo) : bool :=
  optional (fun s => optional (Z.leb 1) (width s) && optional (Z.leb 1) (height s))
    (screen d).

(** [valid('webHID', 'forceTouch', 'pointerEvents', 'motionSensors', 'touchEvents')] *)
Definition validDetectionMethod (m : DetectionMethod) : bool :=
  match m with
  | unknown => false
  | _ => true
  end.

Definition failing (key : string) (ok : bool) : list string :=
  if ok then [] else [key].

Section Schema.

(** [Joi.string().uuid()] *)
Variable guid : string -> bool.

(** [submitVerificationSchema.validate(data, { abortEarly: false })]:
    the failed rules, each under the key it belongs to. *)
Definition submitVerificationSchema (data : SubmitBody) : list string :=
  match challengeId data with
  | None => ["challengeId"%string]
  | Some c => failing "challengeId" (guid c)
  end
  ++ match body_pressureData data with
     | None => ["pressureData"%string]
     | Some samples =>
         failing "pressureData" (forallb validPressureItem samples)
         ++ failing "pressureData" (5 <=? Z.of_nat (List.length samples))%Z
         ++ failing "pressureData" (Z.of_nat (List.length samples) <=? 10000)%Z
     end
  ++ match body_motionData data with
     | None => []
     | Some samples =>
         failing "motionData" (forallb validMotionItem samples)
         ++ failing "motionData" (Z.of_nat (List.length samples) <=? 5000)%Z
     end
  ++ failing "deviceInfo" (optional validDeviceInfo (body_deviceInfo data))
  ++ failing "detectionMethod"
       (optional validDetectionMethod (body_detectionMethod data)).

(** [validateRequest(schema, 'body')] followed by the rest of the
    route: on an error the middleware answers 400 and [next] is not
    called. *)
Definition validateRequest {Body} (schema : Body -> list string)
    (req : Request Body) (next : Request Body -> M Response) : M Response :=
  match schema (body req) with
  | [] => next req
  | errors => ret (ValidationFailed errors)
  end.

(** [authenticateApiKey] followed by the rest of the route. *)
Definition authenticateApiKey {Body}
    (req : Request Body) (next : Request Body -> M Response) : M Response :=
  match apiKey req with
  | Some _ => next req
  | None => ret Unauthorized
  end.

(** The handler of [POST /submit]; the schema has made the two
    required keys present. *)
Definition submitHandler (cfg : Config) (now : Z)
    (verificationId pressureRowId : string) (req : Request SubmitBody)
  : M Response :=
  match challengeId (body req), body_pressureData (body req) with
  | Some challengeId, Some pressureData =>
      tryCatch
        (verification <- submitVerification cfg now verificationId pressureRowId {|
           s_challengeId := challengeId;
           s_pressureData := pressureData;
           s_motionData := body_motionData (body req);
           s_deviceInfo := body_deviceInfo (body req);
           s_detectionMethod := body_detectionMethod (body req)
         |} ;;
         ret (Created verification))
        (fun error => ret (ServerError error))
  | _, _ => ret (ValidationFailed [])
  end.

(** [router.post('/submit', authenticateApiKey,
    validateRequest(submitVerificationSchema, 'body'), handler)] *)
Definition postSubmit (cfg : Config) (now : Z)
    (verificationId pressureRowId : string) (req : Request SubmitBody)
  : M Response :=
  authenticateApiKey req (fun req =>
    validateRequest submitVerificationSchema req
      (submitHandler cfg now verificationId pressureRowId)).

End Schema.

(** [res.json(obj)]: properties whose value is [undefined] are dropped. *)
Definition json (obj : JsObject) : JsObject :=
  filter (fun kv => match snd kv with JUndefined => false | _ => true end) obj.

(** [router.post('/validate-token', ...)]: the schema asks for a string,
    which every token is. *)
Definition postValidateToken (cfg : Config) (now : Z) (req : Request Token)
  : M Response :=
  authenticateApiKey req (fun req =>
    result <- validateToken cfg now (body req) ;;
    ret (Ok (json
      [ ("valid"%string, property result "valid");
        ("isHuman"%string, property result "isHuman");
        ("confidence"%string, property result "confidence");
        ("expiresAt"%string, property result "expiresAt");
        ("verificationId"%string, property result "verificationId") ]))).

End Routes.

(** * Definitions used by the statements and the proofs *)

(** ** The values that the scores of the service analyzer can take *)

Module Scores.

Import Analyzer.

(** Every score is built from a base value by steps that are taken or
    skipped; [outcomes] lists the results of all the choices. *)
Fixpoint outcomes (steps : list (float -> float)) (score : float) : list float :=
  match steps with
  | [] => [score]
  | step :: rest => outcomes rest (step score) ++ outcomes rest score
  end.

Fixpoint distinct (l : list float) : list float :=
  match l with
  | [] => []
  | x :: rest =>
      if existsb (PrimFloat.Leibniz.eqb x) rest then distinct rest
      else x :: distinct rest
  end.

Definition plus (d : float) : float -> float := fun score => score + d.
Definition minus (d : float) : float -> float := fun score => score - d.

Definition pressureScores : list float :=
  Eval vm_compute in
    distinct (outcomes [plus 0.25; plus 0.25; plus 0.2; plus 0.2; plus 0.1] 0).

Definition timingScores : list float :=
  Eval vm_compute in distinct (outcomes [plus 0.4; plus 0.3; plus 0.3] 0).

Definition motionScores : list float :=
  Eval vm_compute in distinct (outcomes [plus 0.2; plus 0.2; minus 0.3] 0.5).

Definition deviceScores : list float :=
  Eval vm_compute in distinct (outcomes [plus 0.2; plus 0.2; plus 0.1] 0.5).

Definition biometricScores : list float :=
  Eval vm_compute in distinct (outcomes [plus 0.3; plus 0.2] 0.5).

(** The boosts of the four browser patterns. *)
Definition boosts : list float := [0.1; 0.08; 0.05; 0.02].

(** The confidence of [analyzePattern] as a function of the five scores
    and of the boost. *)
Definition confidenceOf (p t m d b boost : float) : float :=
  let entries := [ (p, 0.35); (t, 0.25); (m, 0.15); (d, 0.10); (b, 0.15) ] in
  let weightedSum := fold_left (fun acc e => acc + fst e * snd e) entries 0 in
  let totalWeight := fold_left (fun acc e => acc + snd e) entries 0 in
  Js.min2 1.0 ((if 0 <? totalWeight then weightedSum / totalWeight else 0) + boost).


Definition inUnitInterval (c : float) : bool := (0 <=? c) && (c <=? 1).


End Scores.

(** ** Sample series *)

Module Series.

Definition sample (t p : float) : PressureSample :=
  {| timestamp := t; pressure := p; weight := None; position := None |}.

(** [n] samples whose timestamp and pressure are given by the index. *)
Definition series (n : nat) (t p : float -> float) : list PressureSample :=
  map (fun i => sample (t i) (p i)) (Js.indices 0 n).

(** One sample every 50 ms. *)
Definition every50ms (i : float) : float := i * 50.

(** A constant series of [n] samples. *)
Definition constant (n : nat) (p : float) : list PressureSample :=
  series n every50ms (fun _ => p).

(** [n] samples of pressure [p] that carry the same timestamp. *)
Definition sameInstant (n : nat) (p : float) : list PressureSample :=
  series n (fun _ => 1000) (fun _ => p).



End Series.

(** ** The linearity of a ramp, computed in two passes

    [checkLinearity] applied to the ramp of length [n], with the sums
    accumulated index by index instead of over intermediate arrays. *)

Module Ramp.

Import UtilsAnalyzer Series.





(** [uniqueValues.size / pressures.length] in [analyzeNaturalness]. *)
Definition uniqueRatio (pressures : list float) : float :=
  Js.length (newSet pressures []) / Js.length pressures.

End Ramp.

(** ** A run of the lifecycle *)

Module Scenario.

Import Lifecycle Series.

Definition returned {A} (o : Outcome A) : option A :=
  match o with
  | Returned a => Some a
  | Thrown _ => None
  end.

(** The documented defaults: challenges live 5 minutes, verifications 30
    minutes and tokens 24 hours. *)
Definition defaults : Config := {|
  CHALLENGE_EXPIRY_MINUTES := None;
  VERIFICATION_EXPIRY_MINUTES := None;
  JWT_SECRET := "your-secret";
  JWT_EXPIRES_IN := None
|}.

(** Verifications configured to live 10 minutes. *)
Definition tenMinutes : Config := {|
  CHALLENGE_EXPIRY_MINUTES := None;
  VERIFICATION_EXPIRY_MINUTES := Some 10%Z;
  JWT_SECRET := "your-secret";
  JWT_EXPIRES_IN := None
|}.

(** Sixty samples of pressure 0.4 over three seconds, for challenge c1. *)
Definition submission : Submission := {|
  s_challengeId := "c1";
  s_pressureData := constant 60 0.4;
  s_motionData := None;
  s_deviceInfo := None;
  s_detectionMethod := None
|}.

(** The challenge c1 is created at time 0. *)
Definition created (cfg : Config) : Outcome Challenge * State :=
  createChallenge cfg 0 "c1" pressure_pattern medium (Some 5) initial.

(** A first submission one second later, *)
Definition first (cfg : Config) : Outcome Verification * State :=
  submitVerification cfg 1000 "v1" "p1" submission (snd (created cfg)).

(** and a second submission of the same challenge one second after it. *)
Definition second (cfg : Config) : Outcome Verification * State :=
  submitVerification cfg 2000 "v2" "p2" submission (snd (first cfg)).

(** The token that the first submission returns. *)
Definition firstToken (cfg : Config) : Token :=
  match fst (first cfg) with
  | Returned v => default (Malformed EmptyString) (v_token v)
  | Thrown _ => Malformed EmptyString
  end.

(** The verification that the first submission returns. *)
Definition firstVerification (cfg : Config) : option Verification :=
  returned (fst (first cfg)).


Definition minutes (n : Z) : Z := (n * 60 * 1000)%Z.


End Scenario.


(** * Further definitions *)

(** ** The values that the scores of the analyzer by type can take *)

Module TypedScores.

Import UtilsAnalyzer.

(** The analysis record of a challenge type other than [pressure_pattern],
    from the values of its scores. *)
Definition typedOf (t : ChallengeType) (a b c : float) : TypedAnalysis :=
  match t with
  | rhythm_test =>
      {| analysisType := rhythm_test;
         scores := [ ("rhythm"%string, a); ("humanTiming"%string, b) ] |}
  | sustained_pressure =>
      {| analysisType := sustained_pressure;
         scores := [ ("stability"%string, a); ("movement"%string, b);
                     ("fluctuation"%string, c) ] |}
  | _ =>
      {| analysisType := progressive_pressure;
         scores := [ ("progression"%string, a); ("smoothness"%string, b);
                     ("finalPressure"%string, c) ] |}
  end.

(** The values that the scores of a type can take, in the order of the
    record (the rhythm test has two scores only). *)
Definition scoreValues (t : ChallengeType) : list float * list float * list float :=
  match t with
  | rhythm_test => ([0.5; 0.8; 0.4], [0.5; 0.9; 0.4], [0])
  | sustained_pressure => ([0.3; 0.4; 0.8], [0.6; 0.8; 0.5], [0.8; 0.4])
  | _ => ([0.9; 0.6; 0.3], [0.8; 0.4], [0.9; 0.5])
  end.

(** [P] holds of the confidence of every combination of scores. *)
Definition everyTypedConfidence (t : ChallengeType) (P : float -> bool) : bool :=
  let '(xs, ys, zs) := scoreValues t in
  forallb (fun a => forallb (fun b => forallb (fun c =>
    P (calculateOverallConfidence (typedOf t a b c))) zs) ys) xs.

(** The confidence of an analysis that ran: between 0.39 and 0.94. *)
Definition analysed (c : float) : bool := (0.39 <=? c) && (c <=? 0.94).

End TypedScores.

(** ** Statements about the service analyzer *)

Module ServiceScores.

Import Analyzer Scores.

(** The verification input with another detection method. *)
Definition withMethod (data : VerificationData) (m : DetectionMethod)
  : VerificationData := {|
  pressureData := pressureData data;
  motionData := motionData data;
  deviceInfo := deviceInfo data;
  detectionMethod := m;
  challengeType := challengeType data;
  challengeDifficulty := challengeDifficulty data
|}.

(** [Q] holds of every combination of the five scores and the boost. *)
Definition everyAnalysis (Q : float -> float -> float -> float -> float -> float -> bool)
  : bool :=
  forallb (fun p => forallb (fun t => forallb (fun m => forallb (fun d =>
    forallb (fun b => forallb (fun boost => Q p t m d b boost)
    boosts) biometricScores) deviceScores) motionScores) timingScores)
  pressureScores.

(** Without pressure and timing evidence the confidence stays below the
    threshold; in every case it is at least 0.17. *)
Definition evidence (p t m d b boost : float) : bool :=
  (0.17 <=? confidenceOf p t m d b boost)
  && (if PrimFloat.Leibniz.eqb p 0 && PrimFloat.Leibniz.eqb t 0
      then confidenceOf p t m d b boost <? 0.49
      else true).

(** The profiles that [getDeviceProfile] can return: name, pressure
    multiplier and sensitivity. *)
Definition reachableProfiles : list (string * float * float) :=
  [ (MacBookPro16, 1.2, 0.95);
    (MacBookPro14, 1.15, 0.93);
    ("MacBook Air M1"%string, 1.0, 0.88);
    ("MacBook Air M2"%string, 1.05, 0.90);
    ("Surface Pro 8"%string, 0.9, 0.75);
    (iPadPro, 0.8, 0.70);
    ("generic"%string, 1.0, 0.65) ].

(** Five samples that alternate between 1 and 0 and carry the same
    timestamp, with nothing else submitted. *)
Definition erratic : VerificationData := {|
  pressureData :=
    map (fun p => Series.sample 1000 p) [1; 0; 1; 0; 1];
  motionData := [];
  deviceInfo := emptyDeviceInfo;
  detectionMethod := unknown;
  challengeType := pressure_pattern;
  challengeDifficulty := medium
|}.

End ServiceScores.

(** ** Statements about the lifecycle *)

Module LifecycleMore.

Import Lifecycle.
#[local] Open Scope lifecycle_scope.

(** The rows of [challenges] after
    [where('id', challengeId).update({ status })]. *)
Definition marked (challengeId : string) (s : Status) (rows : list Challenge)
  : list Challenge :=
  map (fun c => if String.eqb (id c) challengeId then withStatus c s else c) rows.






(** A date that has been through JSON. *)
Definition isIso (d : DateValue) : bool :=
  match d with
  | IsoString _ => true
  | DateObject _ => false
  end.

(** Every value in Redis has its expiry date as a string. *)
Definition jsonCache (st : State) : Prop :=
  map_Forall (fun _ entry => isIso (expiresAt (fst entry)) = true) (challengeCache st)
  /\ map_Forall (fun _ entry => isIso (v_expiresAt (fst entry)) = true)
       (verificationCache st).

(** The computation [c] keeps the property [P] of the state, whether it
    returns or throws. *)
Definition preserves {A} (P : State -> Prop) (c : M A) : Prop :=
  forall st, P st -> P (snd (c st)).



End LifecycleMore.

(** ** The challenge routes (routes/challenges.js)

    The handlers of [GET /api/v1/challenges/:id] and of
    [DELETE /api/v1/challenges/:id], behind the authentication and the
    validation of the id.  Nothing that they call throws, so the [catch]
    branches are left out. *)

Module ChallengeRoutes.

Import Lifecycle.
#[local] Open Scope lifecycle_scope.

Inductive Response :=
| Ok (challenge : Challenge)   (* 200, with the challenge *)
| Cancelled                    (* 200, 'Challenge cancelled successfully' *)
| NotFound                     (* 404, 'Challenge not found' *)
| Gone.                        (* 410, 'Challenge has expired' *)



End ChallengeRoutes.

(** ** A request of the run *)

Module Requests.

Import Lifecycle Routes.



End Requests.

(** ** The configuration of a challenge (services/challengeService.js)

    [generateChallengeConfig] without the instructions text. *)

Module ChallengeConfig.








End ChallengeConfig.

(** ** The tables only grow *)

Module Tables.

Import Lifecycle.





End Tables.

(** ** The authentication of API keys (middleware/auth.js) and their
    revocation (services/apiKeyService.js) *)

Module Auth.

Import Lifecycle.

(** A row of [api_keys], with the columns that the middleware selects and
    the hash it selects by.  The name and the permissions are carried
    along and never read by the authentication; they are left out.  The
    value that Redis holds under [api_key:<key>] is the JSON text of such
    a row; the dates in it are never read. *)
Record ApiKey := {
  key_id : string;
  key_hash : string;
  is_active : bool;
  key_expires_at : option Z;
  last_used_at : option Z
}.

Record State := {
  api_keys : list ApiKey;
  keyCache : gmap string (ApiKey * Z)
}.

Inductive Answer :=
| Next (apiKey : ApiKey)      (* [req.apiKey] is set and [next()] is called *)
| Refused (error : string).   (* 401 *)

Definition bearer : string := "Bearer ".

(** [expires_at && new Date() > expires_at] *)
Definition expired (now : Z) (expires_at : option Z) : bool :=
  match expires_at with
  | Some date => (date <? now)%Z
  | None => false
  end.

Definition used (now : Z) (r : ApiKey) : ApiKey := {|
  key_id := key_id r; key_hash := key_hash r; is_active := is_active r;
  key_expires_at := key_expires_at r; last_used_at := Some now
|}.


(** [database('api_keys').where('id', id).update(...)] *)
Definition update (id : string) (f : ApiKey -> ApiKey) (rows : list ApiKey)
  : list ApiKey :=
  map (fun r => if String.eqb (key_id r) id then f r else r) rows.

Section Hash.

(** [hashApiKey]: the SHA-256 digest of the key, in hexadecimal. *)
Variable hashApiKey : string -> string.

(** [database('api_keys').select(...).where('key_hash', hashApiKey(apiKey))
    .where('is_active', true).limit(1)] *)
Definition selectKey (apiKey : string) (rows : list ApiKey) : option ApiKey :=
  find (fun r => String.eqb (key_hash r) (hashApiKey apiKey) && is_active r) rows.

(** [authenticateApiKey(req, res, next)], given the reading of the clock
    and the [Authorization] header.  Nothing in the [try] block throws. *)
Definition authenticateApiKey (now : Z) (authorization : option string) (st : State)
  : Answer * State :=
  match authorization with
  | None => (Refused "Missing or invalid authorization header", st)
  | Some authHeader =>
      if negb (String.prefix bearer authHeader)
      then (Refused "Missing or invalid authorization header", st)
      else
        let apiKey :=
          String.substring 7 (String.length authHeader - 7) authHeader in
        match apiKey with
        | EmptyString => (Refused "API key is required", st)
        | _ =>
            match cached (keyCache st) now apiKey with
            | Some cachedKey => (Next cachedKey, st)
            | None =>
                match selectKey apiKey (api_keys st) with
                | None => (Refused "Invalid API key", st)
                | Some apiKeyData =>
                    if expired now (key_expires_at apiKeyData)
                    then (Refused "API key has expired", st)
                    else
                      (Next apiKeyData,
                       {| api_keys := update (key_id apiKeyData) (used now) (api_keys st);
                          keyCache := setEx (keyCache st) now apiKey 300 apiKeyData |})
                end
            end
        end
  end.

End Hash.





End Auth.
(** * Properties of the service analyzer *)

Ltac find_in := vm_compute; repeat (first [left; reflexivity | right]).

Ltac split_ifs :=
  repeat match goal with |- context [if ?c then _ else _] => destruct c end.

Section ServiceAnalyzer.

Import Analyzer.


Import Scores.

Lemma pressure_score_In (pd : list PressureSample) (prof : DeviceProfile) :
  In (pressure_score (analyzePressurePattern constructor pd prof)) pressureScores.
Proof.
  unfold analyzePressurePattern.
  destruct (map pressureOf pd); [find_in|].
  cbv zeta. cbn [pressure_score hasGradualIncrease hasNaturalRelease].
  split_ifs; find_in.
Qed.

Lemma timing_score_In (pd : list PressureSample) :
  In (timing_score (analyzeTimingPattern constructor pd)) timingScores.
Proof.
  unfold analyzeTimingPattern.
  destruct (map timestamp pd) as [|first [|second rest]]; [find_in | find_in |].
  cbv zeta. cbn [timing_score totalDuration].
  split_ifs; find_in.
Qed.

Lemma motion_score_In (md : list MotionSample) :
  In (motion_score (analyzeMotionPattern md)) motionScores.
Proof.
  unfold analyzeMotionPattern.
  destruct md; [find_in|].
  cbv zeta. cbn [motion_score hasSubtleMovement hasNaturalVariation].
  split_ifs; find_in.
Qed.

Lemma device_score_In (di : DeviceInfo) :
  In (device_score (analyzeDeviceCharacteristics di)) deviceScores.
Proof.
  unfold analyzeDeviceCharacteristics.
  cbv zeta. cbn [device_score].
  split_ifs; find_in.
Qed.

Lemma biometric_score_In (pd : list PressureSample) (md : list MotionSample) :
  In (biometric_score (analyzeBiometricSignature pd md)) biometricScores.
Proof.
  unfold analyzeBiometricSignature.
  cbv zeta. cbn [biometric_score uniqueness complexity].
  split_ifs; find_in.
Qed.






End ServiceAnalyzer.

(** * Properties of the analyzer by challenge type *)

Section TypedAnalyzer.

Import UtilsAnalyzer Series.

(** [C1] The confidence is not always in [0, 1].  Fifty samples that carry
    the same timestamp reach the analysis of a [pressure_pattern]
    challenge; every interval is 0, the coefficient of variation of the
    intervals is 0/0, the timing score is NaN, and so is the confidence
    that [analyze] returns.  ([isHuman] is still the comparison of the
    confidence with the threshold: it is false.) *)
Theorem analyze_same_instant_confidence_nan :
  let r := analyze (constructor defaultEnv) 0 1 (sameInstant 50 0.4)
             {| type := pressure_pattern |} in
  is_nan (confidence r) = true
  /\ Scores.inUnitInterval (confidence r) = false
  /\ isHuman r = false
  /\ isHuman r = (confidenceThreshold (thresholds (constructor defaultEnv)) <=? confidence r)
  /\ option_map scores (typed (details r))
     = Some [ ("variance"%string, 0.2); ("timing"%string, nan);
              ("naturalness"%string, 0.5); ("range"%string, 0.3) ].
Proof. vm_compute. repeat split; reflexivity. Qed.

(** For every series and every challenge type, [isHuman] is the comparison
    of the returned confidence with the one configured threshold. *)
Lemma analyze_threshold :
  forall env start finish pd challenge,
    let self := constructor env in
    let r := analyze self start finish pd challenge in
    isHuman r = (confidenceThreshold (thresholds self) <=? confidence r)
    \/ (isHuman r = false /\ confidence r = 0).
Proof.
  intros env start finish pd challenge self r. subst r. unfold analyze.
  destruct (_ <? _)%Z; [right; split; reflexivity|].
  destruct (map pressure pd); [right; split; reflexivity|].
  left. reflexivity.
Qed.

(** [C7] The statistics helpers do not guard their divisions.  The mean of
    the empty series is 0/0; the coefficient of variation of a series of
    mean 0 is 0/0; the R-squared of a constant series is 1 - 0/0.  All
    three are NaN, not a neutral score. *)
Theorem statistics_helpers_yield_nan :
  is_nan (mean (calculateStatistics [])) = true
  /\ is_nan (coefficientOfVariation (calculateStatistics [])) = true
  /\ is_nan (coefficientOfVariation (calculateStatistics [0; 0; 0; 0; 0])) = true
  /\ is_nan (checkLinearity [0.4; 0.4; 0.4; 0.4; 0.4]) = true
  /\ is_nan (checkLinearity [0.4]) = true
  /\ is_nan (checkLinearity []) = true.
Proof. vm_compute. repeat split; reflexivity. Qed.

(** [C8] A constant series of zeros is not scored as bot-like.  Its
    coefficient of variation is 0/0, no comparison with NaN holds, and the
    last branch is taken: the variance score of [pressure_pattern] is 0.6
    (moderate variance) instead of 0.2, and the stability score of
    [sustained_pressure] is 0.8 (good stability) instead of 0.3. *)
Theorem constant_zero_series_not_low :
  let zeros := map pressure (constant 60 0) in
  analyzeVariance zeros = 0.6
  /\ analyzeStability zeros = 0.8
  /\ Analyzer.lookup
       (scores (analyzeByType (constructor defaultEnv) (constant 60 0)
                  {| type := pressure_pattern |})) "variance" = Some 0.6
  /\ Analyzer.lookup
       (scores (analyzeByType (constructor defaultEnv) (constant 60 0)
                  {| type := sustained_pressure |})) "stability" = Some 0.8.
Proof. vm_compute. repeat split; reflexivity. Qed.

(** A constant series of a non-zero value, here sixty samples of 0.4, is
    scored at the low values. *)
Example constant_series_low :
  let values := map pressure (constant 60 0.4) in
  analyzeVariance values = 0.2 /\ analyzeStability values = 0.3.
Proof. vm_compute. split; reflexivity. Qed.

End TypedAnalyzer.

(** * The naturalness of a linear ramp *)

Section LinearRamp.

Import UtilsAnalyzer Series Ramp.












End LinearRamp.

(** * The request validation *)

Section RequestValidation.

Import Lifecycle Routes.

Lemma failing_In (key : string) (ok : bool) : ok = false -> In key (failing key ok).
Proof. intros ->. cbn. auto. Qed.

(** A series of fewer than 5 or more than 10,000 samples fails the
    schema under the key [pressureData]. *)
Lemma schema_refuses_length (guid : string -> bool) (data : SubmitBody)
    (samples : list PressureSample) :
  body_pressureData data = Some samples ->
  (List.length samples < 5)%nat \/ (10000 < Z.of_nat (List.length samples))%Z ->
  In "pressureData"%string (submitVerificationSchema guid data).
Proof.
  intros Hdata Hlen. unfold submitVerificationSchema. rewrite Hdata.
  apply in_or_app. right. apply in_or_app. left.
  apply in_or_app. right.
  destruct Hlen as [Hshort | Hlong].
  - apply in_or_app. left. apply failing_In. apply Z.leb_gt. lia.
  - apply in_or_app. right. apply failing_In. apply Z.leb_gt. lia.
Qed.

(** [C2] A request to [POST /submit] whose pressure series has fewer than 5
    or more than 10,000 samples never reaches [submitVerification]: once
    authenticated it is answered 400 [Validation failed], with
    [pressureData] among the failed keys; no analysis runs, no score is
    returned and the stores are left as they were. *)
Theorem short_or_long_series_rejected :
  forall (guid : string -> bool) (cfg : Config) (now : Z)
         (verificationId pressureRowId : string)
         (req : Request SubmitBody) (samples : list PressureSample) (st : State),
    body_pressureData (body req) = Some samples ->
    (List.length samples < 5)%nat \/ (10000 < Z.of_nat (List.length samples))%Z ->
    let answer := postSubmit guid cfg now verificationId pressureRowId req st in
    snd answer = st
    /\ (forall verification, fst answer <> Returned (Created verification))
    /\ (apiKey req <> None ->
        exists details,
          fst answer = Returned (ValidationFailed details)
          /\ In "pressureData"%string details).
Proof.
  intros guid cfg now vid pid req samples st Hdata Hlen answer.
  pose proof (schema_refuses_length guid (body req) samples Hdata Hlen) as Hin.
  subst answer. unfold postSubmit, authenticateApiKey, validateRequest.
  destruct (apiKey req) as [key|].
  - destruct (submitVerificationSchema guid (body req)) as [|e errors];
      [destruct Hin|].
    unfold ret. cbn [fst snd]. repeat split.
    + intros verification. discriminate.
    + intros _. eexists. split; [reflexivity|exact Hin].
  - unfold ret. cbn [fst snd]. repeat split.
    + intros verification. discriminate.
    + intros H. now destruct H.
Qed.

(** Four samples, sent with a valid key. *)
Lemma short_or_long_series_rejected_witness :
  let req := {| apiKey := Some "key-1"%string;
                body := {| challengeId := Some "c1"%string;
                           body_pressureData := Some (Series.constant 4 0.4);
                           body_motionData := None;
                           body_deviceInfo := None;
                           body_detectionMethod := None |} |} in
  let answer :=
    postSubmit (fun _ => true) Scenario.defaults 1000 "v1" "p1" req
      (snd (Scenario.created Scenario.defaults)) in
  snd answer = snd (Scenario.created Scenario.defaults)
  /\ (forall verification, fst answer <> Returned (Created verification))
  /\ (apiKey req <> None ->
      exists details,
        fst answer = Returned (ValidationFailed details)
        /\ In "pressureData"%string details).
Proof.
  apply (short_or_long_series_rejected (fun _ => true) Scenario.defaults 1000
           "v1" "p1" _ (Series.constant 4 0.4)).
  - reflexivity.
  - left. vm_compute. lia.
Defined.

End RequestValidation.

(** * The lifecycle *)

Section LifecycleProperties.

Import Lifecycle Scenario.
#[local] Open Scope lifecycle_scope.








(** Once the cached text has expired the challenge is read from the
    table, and a further submission is refused. *)
Example submission_after_cache_expiry :
  fst (submitVerification defaults (minutes 5) "v3" "p3" submission
         (snd (first defaults)))
  = Thrown ChallengeNotPending.
Proof. vm_compute. reflexivity. Qed.

(** [C4] An expired verification is reported valid.  With verifications
    configured to live 10 minutes, the verification of the first
    submission expires at 601 s, while its JSON text stays in the cache
    for 30 minutes.  At 15 minutes the token has a correct signature and
    the verification has expired; [validateToken] reads the verification
    from the cache, compares the clock with the string and answers
    [valid: true]. *)
Theorem expired_verification_reported_valid :
  let now := minutes 15 in
  let answer := validateToken tenMinutes now (firstToken tenMinutes)
                  (snd (first tenMinutes)) in
  option_map v_expiresAt (firstVerification tenMinutes) = Some (DateObject 601000)
  /\ (601000 < now)%Z
  /\ (exists claims,
        jwt_verify now (JWT_SECRET tenMinutes) (firstToken tenMinutes) = Some claims)
  /\ option_map (fun obj => property obj "valid") (returned (fst answer))
     = Some (JBool true).
Proof.
  vm_compute. repeat split; try reflexivity. eexists. reflexivity.
Qed.

(** A failed check is reported as [{ valid: false }] and nothing else,
    whichever check failed. *)
Lemma validateToken_failure_uniform :
  forall cfg now token st,
    exists obj,
      fst (validateToken cfg now token st) = Returned obj
      /\ (property obj "valid" = JBool true \/ obj = invalid).
Proof.
  intros cfg now token st. unfold validateToken.
  destruct (jwt_verify _ _ _) as [decoded|]; [|eexists; split; [reflexivity|now right]].
  unfold bind, getVerification, bind, gets, selectVerification, ret.
  destruct (cached _ _ _) as [v|].
  - destruct (nowIsAfter _ _); eexists; (split; [reflexivity|]); cbn; auto.
  - cbn. destruct (find _ (verifications st)) as [v|];
      [|eexists; split; [reflexivity|now right]].
    destruct (positive _); cbn;
      destruct (nowIsAfter _ _); eexists; (split; [reflexivity|]); cbn; auto.
Qed.

(** A verification that is read from the table is refused once it has
    expired. *)
Example expired_verification_from_table :
  option_map (fun obj => property obj "valid")
    (returned (fst (validateToken tenMinutes (minutes 31) (firstToken tenMinutes)
                      (snd (first tenMinutes)))))
  = Some (JBool false).
Proof. vm_compute. reflexivity. Qed.

(** [C6] The result of [validateToken] has no [verificationId].  Whatever
    the token, the object returned has no such property, so the route
    reads [undefined] and its answer carries no [verificationId] key; so
    it is for the valid token of the first submission. *)
Theorem validateToken_without_verificationId :
  (forall cfg now token st,
      exists obj,
        fst (validateToken cfg now token st) = Returned obj
        /\ property obj "verificationId" = JUndefined)
  /\ (let answer :=
        Routes.postValidateToken defaults (minutes 1)
          {| Routes.apiKey := Some "key-1"%string;
             Routes.body := firstToken defaults |}
          (snd (first defaults)) in
      fst answer
      = Returned (Routes.Ok
          [ ("valid"%string, JBool true);
            ("isHuman"%string, JBool false);
            ("confidence"%string, JNumber 0.4825);
            ("expiresAt"%string, JDate (IsoString 1801000)) ])).
Proof.
  split.
  - intros cfg now token st.
    destruct (validateToken_failure_uniform cfg now token st) as (obj & Hobj & Hshape).
    exists obj. split; [exact Hobj|].
    destruct Hshape as [Hvalid | ->]; [|reflexivity].
    revert Hobj Hvalid. unfold validateToken.
    destruct (jwt_verify _ _ _) as [decoded|]; [|intros [= <-]; discriminate].
    unfold bind, getVerification, bind, gets, selectVerification, ret.
    destruct (cached _ _ _) as [v|].
    + destruct (nowIsAfter _ _); intros [= <-]; [discriminate|reflexivity].
    + cbn. destruct (find _ (verifications st)) as [v|];
        [|intros [= <-]; discriminate].
      destruct (positive _); cbn;
        destruct (nowIsAfter _ _); intros [= <-]; try discriminate; reflexivity.
  - vm_compute. reflexivity.
Qed.

End LifecycleProperties.

(** * Further properties of the analyzer by challenge type *)

Section TypedAnalyzerMore.

Import UtilsAnalyzer TypedScores.

Lemma analyzeRhythm_In taps : In (analyzeRhythm taps) [0.5; 0.8; 0.4].
Proof. unfold analyzeRhythm. cbv zeta. split_ifs; cbn; auto. Qed.

Lemma analyzeHumanTiming_In taps : In (analyzeHumanTiming taps) [0.5; 0.9; 0.4].
Proof. unfold analyzeHumanTiming. cbv zeta. split_ifs; cbn; auto. Qed.

Lemma analyzeStability_In ps : In (analyzeStability ps) [0.3; 0.4; 0.8].
Proof. unfold analyzeStability. cbv zeta. split_ifs; cbn; auto. Qed.

Lemma analyzeMovement_In pd : In (analyzeMovement pd) [0.6; 0.8; 0.5].
Proof. unfold analyzeMovement. cbv zeta. split_ifs; cbn; auto. Qed.

Lemma analyzeFluctuations_In ps : In (analyzeFluctuations ps) [0.8; 0.4].
Proof. unfold analyzeFluctuations. cbv zeta. split_ifs; cbn; auto. Qed.

Lemma analyzeProgression_In ps : In (analyzeProgression ps) [0.9; 0.6; 0.3].
Proof. unfold analyzeProgression. cbv zeta. split_ifs; cbn; auto. Qed.

Lemma analyzeProgressionSmoothness_In ps :
  In (analyzeProgressionSmoothness ps) [0.8; 0.4].
Proof. unfold analyzeProgressionSmoothness. cbv zeta. split_ifs; cbn; auto. Qed.

Lemma analyzeFinalPressure_In ps : In (analyzeFinalPressure ps) [0.9; 0.5].
Proof. unfold analyzeFinalPressure. cbv zeta. split_ifs; cbn; auto. Qed.

(** A property that holds of every combination of scores holds of the
    confidence computed for a challenge of the type. *)
Lemma typed_confidence_cases (t : ChallengeType) (P : float -> bool) :
  t <> pressure_pattern ->
  everyTypedConfidence t P = true ->
  forall self pd,
    P (calculateOverallConfidence (analyzeByType self pd {| type := t |})) = true.
Proof.
  intros Ht H self pd. unfold everyTypedConfidence in H.
  destruct t; [congruence| | |]; cbn [scoreValues] in H;
    unfold analyzeByType; cbn [type];
    rewrite forallb_forall in H.
  - specialize (H _ (analyzeRhythm_In (detectTaps pd))).
    rewrite forallb_forall in H.
    specialize (H _ (analyzeHumanTiming_In (detectTaps pd))).
    rewrite forallb_forall in H. apply (H 0). cbn; auto.
  - specialize (H _ (analyzeStability_In (map pressure pd))).
    rewrite forallb_forall in H.
    specialize (H _ (analyzeMovement_In pd)).
    rewrite forallb_forall in H.
    exact (H _ (analyzeFluctuations_In (map pressure pd))).
  - specialize (H _ (analyzeProgression_In (map pressure pd))).
    rewrite forallb_forall in H.
    specialize (H _ (analyzeProgressionSmoothness_In (map pressure pd))).
    rewrite forallb_forall in H.
    exact (H _ (analyzeFinalPressure_In (map pressure pd))).
Qed.

Lemma every_typed_confidence_analysed (t : ChallengeType) :
  t <> pressure_pattern ->
  everyTypedConfidence t (fun c => Scores.inUnitInterval c && analysed c) = true.
Proof. destruct t; [congruence| | |]; intros _; vm_compute; reflexivity. Qed.

(** [X1] For a rhythm test, a sustained pressure or a progressive pressure
    challenge, whatever the series and the configured thresholds, the
    confidence that [analyze] returns is a number of [0, 1], never NaN:
    it is 0 when the series is rejected before the analysis, and lies
    between 0.39 and 0.94 when the analysis ran. *)
Theorem analyze_other_types_confidence_range :
  forall (env : Env) (start finish : Z) (pd : list PressureSample)
         (t : ChallengeType),
    t <> pressure_pattern ->
    let r := analyze (constructor env) start finish pd {| type := t |} in
    Scores.inUnitInterval (confidence r) = true
    /\ match typed (details r) with
       | Some _ => analysed (confidence r) = true
       | None => confidence r = 0 /\ isHuman r = false
       end.
Proof.
  intros env start finish pd t Ht r. subst r. unfold analyze.
  destruct (_ <? _)%Z; [split; [reflexivity|split; reflexivity]|].
  destruct (map pressure pd) eqn:E; [split; [reflexivity|split; reflexivity]|].
  cbn [confidence details typed].
  pose proof (typed_confidence_cases t _ Ht
                (every_typed_confidence_analysed t Ht) (constructor env) pd) as H.
  cbv beta in H. apply andb_true_iff in H. exact H.
Qed.

(** A sustained pressure challenge, sixty samples of 0.4. *)
Lemma analyze_other_types_confidence_range_witness :
  let r := analyze (constructor defaultEnv) 0 1 (Series.constant 60 0.4)
             {| type := sustained_pressure |} in
  Scores.inUnitInterval (confidence r) = true
  /\ match typed (details r) with
     | Some _ => analysed (confidence r) = true
     | None => confidence r = 0 /\ isHuman r = false
     end.
Proof.
  apply (analyze_other_types_confidence_range defaultEnv 0 1
           (Series.constant 60 0.4) sustained_pressure).
  discriminate.
Defined.

(** Comparison with constants, from the specification of the binary64
    operations: a number that is at most 1 is not above 2. *)
Lemma at_most_one_not_above_two (p : float) :
  (p <=? 1) = true -> (2 <? p) = false.
Proof.
  rewrite leb_spec, ltb_spec.
  replace (Prim2SF 1) with (S754_finite false 4503599627370496 (-52))
    by (vm_compute; reflexivity).
  replace (Prim2SF 2) with (S754_finite false 4503599627370496 (-51))
    by (vm_compute; reflexivity).
  destruct (Prim2SF p) as [s|s| |s m e].
  - destruct s; intros _; reflexivity.
  - destruct s; intros H; [reflexivity|discriminate H].
  - intros H; discriminate H.
  - unfold SFleb, SFltb, SFcompare.
    destruct s; [intros _; reflexivity|].
    destruct (Z.compare_spec e (-52)); destruct (Z.compare_spec (-51) e);
      try lia; intros H; try reflexivity; try discriminate H.
Qed.

(** While no sample is above the threshold, no tap starts. *)
Lemma detectTapsLoop_quiet (pd : list PressureSample) (taps : list Tap) :
  forallb (fun d => negb (2.0 <? pressure d)) pd = true ->
  detectTapsLoop pd None taps = taps.
Proof.
  induction pd as [|d pd IH]; intros H; [reflexivity|].
  cbn in H. apply andb_true_iff in H as [Hd Hpd].
  apply negb_true_iff in Hd. cbn [detectTapsLoop]. cbv zeta.
  rewrite Hd. auto.
Qed.

Lemma valid_items_quiet (pd : list PressureSample) :
  forallb Routes.validPressureItem pd = true ->
  forallb (fun d => negb (2.0 <? pressure d)) pd = true.
Proof.
  intros H. rewrite forallb_forall in *. intros d Hd.
  specialize (H d Hd). unfold Routes.validPressureItem in H.
  repeat match goal with
         | A : _ && _ = true |- _ => apply andb_true_iff in A as [? ?]
         end.
  apply negb_true_iff. now apply at_most_one_not_above_two.
Qed.

(** [X2] A series that the request schema lets through never shows a tap.
    The schema bounds every pressure by 1 and [detectTaps] looks for
    samples above 2.0; so no tap is found, both scores of the rhythm test
    are the neutral 0.5, the confidence is 0.5 when the analysis runs, and
    the series is not classified human unless the configured threshold is
    0.5 or less. *)
Theorem rhythm_test_of_valid_series :
  forall (env : Env) (start finish : Z) (pd : list PressureSample),
    forallb Routes.validPressureItem pd = true ->
    let self := constructor env in
    let r := analyze self start finish pd {| type := rhythm_test |} in
    detectTaps pd = []
    /\ scores (analyzeByType self pd {| type := rhythm_test |})
       = [ ("rhythm"%string, 0.5); ("humanTiming"%string, 0.5) ]
    /\ (confidence r = 0.5 \/ confidence r = 0)
    /\ (isHuman r = true -> (confidenceThreshold (thresholds self) <=? 0.5) = true).
Proof.
  intros env start finish pd Hvalid self r.
  assert (Htaps : detectTaps pd = [])
    by (apply detectTapsLoop_quiet, valid_items_quiet, Hvalid).
  assert (Hscores : scores (analyzeByType self pd {| type := rhythm_test |})
                    = [ ("rhythm"%string, 0.5); ("humanTiming"%string, 0.5) ]).
  { unfold analyzeByType, analyzeRhythmTest. cbn [type scores].
    rewrite Htaps. reflexivity. }
  split; [exact Htaps|]. split; [exact Hscores|].
  subst r. unfold analyze.
  destruct (_ <? _)%Z; [split; [now right|discriminate]|].
  destruct (map pressure pd); [split; [now right|discriminate]|].
  cbn [confidence isHuman].
  assert (Hc : calculateOverallConfidence
                 (analyzeByType self pd {| type := rhythm_test |}) = 0.5).
  { unfold calculateOverallConfidence. rewrite Hscores.
    unfold analyzeByType, analyzeRhythmTest. cbn [type analysisType].
    vm_compute. reflexivity. }
  rewrite Hc. split; [now left|auto].
Qed.

(** Sixty samples of 0.4, analyzed with the default thresholds. *)
Lemma rhythm_test_of_valid_series_witness :
  let pd := Series.constant 60 0.4 in
  let self := constructor defaultEnv in
  let r := analyze self 0 1 pd {| type := rhythm_test |} in
  detectTaps pd = []
  /\ scores (analyzeByType self pd {| type := rhythm_test |})
     = [ ("rhythm"%string, 0.5); ("humanTiming"%string, 0.5) ]
  /\ (confidence r = 0.5 \/ confidence r = 0)
  /\ (isHuman r = true -> (confidenceThreshold (thresholds self) <=? 0.5) = true).
Proof.
  apply (rhythm_test_of_valid_series defaultEnv 0 1 (Series.constant 60 0.4)).
  vm_compute. reflexivity.
Defined.

(** The taps found by the loop, given those found so far and the tap in
    progress. *)
Lemma detectTapsLoop_taps (pd : list PressureSample) :
  forall (tapStart : option TapStart) (taps : list Tap),
    (forall ts, tapStart = Some ts -> (2.0 <? startPressure ts) = true) ->
    (forall t, In t taps ->
       (2.0 <? startPressure (tap_start t)) = true
       /\ duration t = endTime t - startTime (tap_start t)) ->
    forall t, In t (detectTapsLoop pd tapStart taps) ->
      (2.0 <? startPressure (tap_start t)) = true
      /\ duration t = endTime t - startTime (tap_start t).
Proof.
  induction pd as [|d pd IH]; intros tapStart taps Hstart Htaps t Ht.
  - cbn in Ht. now apply Htaps.
  - cbn [detectTapsLoop] in Ht. cbv zeta in Ht.
    destruct tapStart as [ts|].
    + destruct (tap_maxPressure ts <? pressure d).
      * refine (IH _ _ _ Htaps t Ht).
        intros ts' [= <-]. cbn. now apply Hstart.
      * destruct (pressure d <=? 2.0).
        -- refine (IH _ _ _ _ t Ht); [intros ? H0; discriminate H0|].
           intros t' Hin. apply in_app_or in Hin as [Hin | [<- | []]].
           ++ now apply Htaps.
           ++ cbn. split; [now apply Hstart|reflexivity].
        -- exact (IH _ _ Hstart Htaps t Ht).
    + destruct (2.0 <? pressure d) eqn:Hd.
      * refine (IH _ _ _ Htaps t Ht).
        intros ts' [= <-]. exact Hd.
      * refine (IH _ _ _ Htaps t Ht). intros ? H0; discriminate H0.
Qed.

(** A tap takes a sample to start and a later sample to end. *)
Lemma detectTapsLoop_count (pd : list PressureSample) :
  forall (tapStart : option TapStart) (taps : list Tap),
    (2 * List.length (detectTapsLoop pd tapStart taps)
     <= 2 * List.length taps + List.length pd
        + match tapStart with Some _ => 1 | None => 0 end)%nat.
Proof.
  induction pd as [|d pd IH]; intros tapStart taps.
  - cbn. lia.
  - cbn [detectTapsLoop]. cbv zeta.
    destruct tapStart as [ts|].
    + destruct (tap_maxPressure ts <? pressure d).
      * specialize (IH (Some {| startTime := startTime ts;
                                startPressure := startPressure ts;
                                tap_maxPressure := pressure d;
                                maxTime := timestamp d |}) taps).
        cbn [List.length] in *. lia.
      * destruct (pressure d <=? 2.0).
        -- specialize (IH None (taps ++ [ {| tap_start := ts;
                                            endTime := timestamp d;
                                            duration := timestamp d - startTime ts |} ])).
           rewrite length_app in IH. cbn [List.length] in *. lia.
        -- specialize (IH (Some ts) taps). cbn [List.length] in *. lia.
    + destruct (2.0 <? pressure d).
      * specialize (IH (Some {| startTime := timestamp d;
                                startPressure := pressure d;
                                tap_maxPressure := pressure d;
                                maxTime := timestamp d |}) taps).
        cbn [List.length] in *. lia.
      * specialize (IH None taps). cbn [List.length] in *. lia.
Qed.

(** [X3] The taps that [detectTaps] reports: every tap started on a sample
    above the threshold 2.0, its duration is its end time minus its start
    time, and a series of n samples holds at most n/2 taps (a tap needs a
    sample to start and a later one, at or below the threshold, to end;
    a tap still in progress at the end of the series is not reported). *)
Theorem detectTaps_taps :
  forall (pd : list PressureSample),
    (2 * List.length (detectTaps pd) <= List.length pd)%nat
    /\ (forall t, In t (detectTaps pd) ->
         (2.0 <? startPressure (tap_start t)) = true
         /\ duration t = endTime t - startTime (tap_start t)).
Proof.
  intros pd. split.
  - pose proof (detectTapsLoop_count pd None []) as H. cbn in H.
    unfold detectTaps. lia.
  - intros t Ht. unfold detectTaps in Ht.
    refine (detectTapsLoop_taps pd None [] _ _ t Ht).
    + intros ? H0; discriminate H0.
    + intros t' [].
Qed.

End TypedAnalyzerMore.

(** * Further properties of the service analyzer *)

Section ServiceAnalyzerMore.

Import Analyzer Scores ServiceScores.

Lemma scores_in_unit_interval :
  forallb inUnitInterval pressureScores = true
  /\ forallb inUnitInterval timingScores = true
  /\ forallb inUnitInterval motionScores = true
  /\ forallb inUnitInterval deviceScores = true
  /\ forallb inUnitInterval biometricScores = true.
Proof. vm_compute. repeat split; reflexivity. Qed.

(** [X4] Each of the five analyses of the service analyzer returns a score
    of [0, 1], never NaN, whatever the samples, the motion data, the device
    information and the device profile; without motion data the motion
    score is the neutral 0.5. *)
Theorem feature_scores_in_unit_interval :
  forall (pd : list PressureSample) (md : list MotionSample) (di : DeviceInfo)
         (prof : DeviceProfile),
    inUnitInterval (pressure_score (analyzePressurePattern constructor pd prof)) = true
    /\ inUnitInterval (timing_score (analyzeTimingPattern constructor pd)) = true
    /\ inUnitInterval (motion_score (analyzeMotionPattern md)) = true
    /\ inUnitInterval (device_score (analyzeDeviceCharacteristics di)) = true
    /\ inUnitInterval (biometric_score (analyzeBiometricSignature pd md)) = true
    /\ motion_score (analyzeMotionPattern []) = 0.5.
Proof.
  intros pd md di prof.
  destruct scores_in_unit_interval as (Hp & Ht & Hm & Hd & Hb).
  rewrite forallb_forall in Hp, Ht, Hm, Hd, Hb.
  repeat split.
  - apply Hp, pressure_score_In.
  - apply Ht, timing_score_In.
  - apply Hm, motion_score_In.
  - apply Hd, device_score_In.
  - apply Hb, biometric_score_In.
Qed.

(** What [analyzePattern] returns once the series has at least 5 samples:
    the analysis, and a confidence that is the function [confidenceOf] of
    scores and of a boost among the possible values. *)
Lemma analysis_cases
    (Q : float -> float -> float -> float -> float -> float -> bool) :
  everyAnalysis Q = true ->
  forall now data a,
    analysis (analyzePattern constructor now data) = Some a ->
    let s := analyses a in
    Q (pressure_score (on_pressure s)) (timing_score (on_timing s))
      (motion_score (on_motion s)) (device_score (on_device s))
      (biometric_score (on_biometric s)) (browserBoost (composite a)) = true
    /\ confidence (analyzePattern constructor now data)
       = confidenceOf
           (pressure_score (on_pressure s)) (timing_score (on_timing s))
           (motion_score (on_motion s)) (device_score (on_device s))
           (biometric_score (on_biometric s)) (browserBoost (composite a))
    /\ isHuman (analyzePattern constructor now data)
       = (0.65 <=? confidence (analyzePattern constructor now data)).
Proof.
  unfold everyAnalysis. intros H now data a.
  unfold analyzePattern. cbv zeta.
  destruct (_ <? 5)%nat; [discriminate|].
  set (prof := getDeviceProfile _ _).
  assert (Hb : exists bp,
             match browserPatterns constructor (detectionMethod data) with
             | Some p => Some p
             | None => browserPatterns constructor pointerEvents
             end = Some bp
             /\ In (confidenceBoost bp) boosts).
  { destruct (detectionMethod data); cbn; eexists;
      (split; [reflexivity|]); cbn; auto 10. }
  destruct Hb as (bp & -> & Hbp).
  cbn [analysis confidence isHuman]. intros [= <-].
  cbn [analyses composite browserBoost on_pressure on_timing on_motion on_device
       on_biometric].
  split; [|split; reflexivity].
  rewrite forallb_forall in H.
  specialize (H _ (pressure_score_In (pressureData data) prof)).
  rewrite forallb_forall in H.
  specialize (H _ (timing_score_In (pressureData data))).
  rewrite forallb_forall in H.
  specialize (H _ (motion_score_In (motionData data))).
  rewrite forallb_forall in H.
  specialize (H _ (device_score_In (deviceInfo data))).
  rewrite forallb_forall in H.
  specialize (H _ (biometric_score_In (pressureData data) (motionData data))).
  rewrite forallb_forall in H.
  exact (H _ Hbp).
Qed.

Lemma every_analysis_evidence : everyAnalysis evidence = true.
Proof. vm_compute. reflexivity. Qed.

(** [X5] The weight of the evidence in [analyzePattern].  Once the analysis
    ran, the confidence is at least 0.17, since the motion, device and
    biometric scores start from a neutral value.  When both the pressure
    score and the timing score are 0, the confidence is below 0.49 and the
    series is not classified human: device, motion and biometric evidence
    do not reach the threshold by themselves. *)
Theorem analyzePattern_evidence :
  forall (now : Z) (data : VerificationData) (a : Analysis),
    let r := analyzePattern constructor now data in
    analysis r = Some a ->
    (0.17 <=? confidence r) = true
    /\ (pressure_score (on_pressure (analyses a)) = 0 ->
        timing_score (on_timing (analyses a)) = 0 ->
        (confidence r <? 0.49) = true /\ isHuman r = false).
Proof.
  intros now data a r Ha. subst r.
  destruct (analysis_cases evidence every_analysis_evidence now data a Ha)
    as (HQ & Hc & Hh).
  cbv zeta in HQ, Hc. unfold evidence in HQ. rewrite <- Hc in HQ.
  apply andb_true_iff in HQ as [Hfloor Hev].
  split; [exact Hfloor|].
  intros Hp Ht. rewrite Hp, Ht in Hev.
  change (PrimFloat.Leibniz.eqb 0 0) with true in Hev. cbn [andb] in Hev.
  split; [exact Hev|].
  rewrite Hh.
  revert Hev. generalize (confidence (analyzePattern constructor now data)).
  intros c. rewrite ltb_spec, leb_spec.
  replace (Prim2SF 0.49) with (S754_finite false 8827055269646172 (-54))
    by (vm_compute; reflexivity).
  replace (Prim2SF 0.65) with (S754_finite false 5854679515581645 (-53))
    by (vm_compute; reflexivity).
  destruct (Prim2SF c) as [s|s| |s m e]; unfold SFltb, SFleb, SFcompare.
  - destruct s; intros _; reflexivity.
  - destruct s; intros H; [reflexivity|discriminate H].
  - intros H; discriminate H.
  - destruct s; [intros _; reflexivity|].
    destruct (Z.compare_spec e (-54)); destruct (Z.compare_spec (-53) e);
      try lia; intros H; try reflexivity; try discriminate H.
Qed.

(** The erratic series: no pressure evidence and no timing evidence. *)
Lemma analyzePattern_evidence_witness :
  let r := analyzePattern constructor 0 erratic in
  (0.17 <=? confidence r) = true
  /\ (confidence r <? 0.49) = true
  /\ isHuman r = false.
Proof.
  assert (Ha : analysis (analyzePattern constructor 0 erratic) = Some _)
    by (vm_compute; reflexivity).
  destruct (analyzePattern_evidence 0 erratic _ Ha) as [Hfloor Hev].
  split; [exact Hfloor|].
  apply Hev; vm_compute; reflexivity.
Defined.

(** [X6] The detection methods without a browser pattern of their own,
    [touchEvents] and [unknown], are analyzed with the pattern of
    [pointerEvents]: the boost is 0.05, and the confidence, the decision
    and the analysis are those of the same input submitted as
    [pointerEvents]. *)
Theorem detection_method_fallback :
  forall (now : Z) (data : VerificationData) (m : DetectionMethod),
    browserPatterns constructor m = None ->
    let r := analyzePattern constructor now (withMethod data m) in
    let r' := analyzePattern constructor now (withMethod data pointerEvents) in
    (m = touchEvents \/ m = unknown)
    /\ confidence r = confidence r'
    /\ isHuman r = isHuman r'
    /\ analysis r = analysis r'
    /\ (forall a, analysis r = Some a -> browserBoost (composite a) = 0.05).
Proof.
  intros now data m Hm r r'. subst r r'.
  split; [destruct m; try discriminate Hm; auto|].
  unfold analyzePattern. cbv zeta. cbn [pressureData motionData deviceInfo
    detectionMethod withMethod].
  rewrite Hm.
  destruct (_ <? 5)%nat; [repeat split; intros a H; discriminate H|].
  cbn. repeat split. intros a [= <-]. reflexivity.
Qed.

(** The erratic series, submitted without a detection method. *)
Lemma detection_method_fallback_witness :
  let r := analyzePattern constructor 0 (withMethod erratic unknown) in
  let r' := analyzePattern constructor 0 (withMethod erratic pointerEvents) in
  (unknown = touchEvents \/ unknown = unknown)
  /\ confidence r = confidence r'
  /\ isHuman r = isHuman r'
  /\ analysis r = analysis r'
  /\ (forall a, analysis r = Some a -> browserBoost (composite a) = 0.05).
Proof.
  apply (detection_method_fallback 0 erratic unknown). reflexivity.
Defined.

Lemma lookup_reachable (key : string) (m s : float) :
  In (key, m, s) reachableProfiles ->
  lookup (deviceProfiles constructor) key = Some (m, s).
Proof.
  intros H. repeat (destruct H as [[= <- <- <-] | H]; [reflexivity|]).
  destruct H.
Qed.

(** [X7] The device profile.  [getDeviceProfile] always finds a profile in
    the table of the analyzer: the result is one of seven profiles, with a
    pressure multiplier between 0.8 and 1.2 (the entry of the Surface Pro 9
    is never selected).  A user agent that mentions none of Macintosh,
    Windows and iPad, or no user agent at all, gets the generic profile
    with the multiplier 1. *)
Theorem getDeviceProfile_reachable :
  forall (di : DeviceInfo),
    let p := getDeviceProfile constructor di in
    In (name p, pressureMultiplier p, sensitivity p) reachableProfiles
    /\ (0.8 <=? pressureMultiplier p) = true
    /\ (pressureMultiplier p <=? 1.2) = true
    /\ (Js.includes (userAgentOf di) "Macintosh" = false ->
        Js.includes (userAgentOf di) "Windows" = false ->
        Js.includes (userAgentOf di) "iPad" = false ->
        name p = "generic"%string /\ pressureMultiplier p = 1.0).
Proof.
  intros di p.
  assert (Hin : In (name p, pressureMultiplier p, sensitivity p) reachableProfiles).
  { subst p. unfold getDeviceProfile. cbv zeta.
    repeat match goal with
           | |- context [if ?c then _ else _] => destruct c
           | |- context [match screenWidth di with _ => _ end] =>
               destruct (screenWidth di)
           end;
      vm_compute; repeat (first [left; reflexivity | right]). }
  split; [exact Hin|].
  assert (Hrange : forallb (fun e => (0.8 <=? snd (fst e)) && (snd (fst e) <=? 1.2))
                     reachableProfiles = true) by (vm_compute; reflexivity).
  rewrite forallb_forall in Hrange. specialize (Hrange _ Hin). cbn in Hrange.
  apply andb_true_iff in Hrange as [H1 H2].
  split; [exact H1|]. split; [exact H2|].
  intros Hm Hw Hi. subst p. unfold getDeviceProfile. cbv zeta.
  rewrite Hm, Hw, Hi. vm_compute. split; reflexivity.
Qed.

(** No device information. *)
Lemma getDeviceProfile_reachable_witness :
  let p := getDeviceProfile constructor emptyDeviceInfo in
  In (name p, pressureMultiplier p, sensitivity p) reachableProfiles
  /\ (0.8 <=? pressureMultiplier p) = true
  /\ (pressureMultiplier p <=? 1.2) = true
  /\ (Js.includes (userAgentOf emptyDeviceInfo) "Macintosh" = false ->
      Js.includes (userAgentOf emptyDeviceInfo) "Windows" = false ->
      Js.includes (userAgentOf emptyDeviceInfo) "iPad" = false ->
      name p = "generic"%string /\ pressureMultiplier p = 1.0).
Proof. exact (getDeviceProfile_reachable emptyDeviceInfo). Defined.

End ServiceAnalyzerMore.

(** * Further properties of the lifecycle *)

Section LifecycleFrames.

Import Lifecycle Scenario LifecycleMore.
#[local] Open Scope lifecycle_scope.






Lemma marked_status (cid : string) (s : Status) (rows : list Challenge) :
  Forall (fun c => id c = cid -> status c = s) (marked cid s rows).
Proof.
  unfold marked. apply Forall_forall. intros c Hin.
  apply in_map_iff in Hin as (c0 & <- & _).
  destruct (String.eqb (id c0) cid) eqn:E; [reflexivity|].
  intros H. apply String.eqb_neq in E. contradiction.
Qed.














End LifecycleFrames.

Section LifecycleInvariant.

Import Lifecycle Scenario LifecycleMore.
#[local] Open Scope lifecycle_scope.

Lemma preserves_ret {A} (P : State -> Prop) (a : A) : preserves P (ret a).
Proof. intros st H. exact H. Qed.

Lemma preserves_throw {A} (P : State -> Prop) (e : Error) : preserves P (@throw A e).
Proof. intros st H. exact H. Qed.

Lemma preserves_gets {A} (P : State -> Prop) (f : State -> A) : preserves P (gets f).
Proof. intros st H. exact H. Qed.

Lemma preserves_bind {A B} (P : State -> Prop) (c : M A) (k : A -> M B) :
  preserves P c -> (forall a, preserves P (k a)) -> preserves P (bind c k).
Proof.
  intros Hc Hk st HP. unfold bind. specialize (Hc st HP).
  destruct (c st) as [[a|e] st1]; cbn in Hc |- *; [apply Hk|]; exact Hc.
Qed.

Lemma preserves_tryCatch {A} (P : State -> Prop) (body : M A) (handler : Error -> M A) :
  preserves P body -> (forall e, preserves P (handler e)) ->
  preserves P (tryCatch body handler).
Proof.
  intros Hc Hk st HP. unfold tryCatch. specialize (Hc st HP).
  destruct (body st) as [[a|e] st1]; cbn in Hc |- *; [|apply Hk]; exact Hc.
Qed.

Lemma setEx_Forall {A} (Q : A -> Prop) (cache : gmap string (A * Z))
    (now : Z) (key : string) (seconds : Z) (value : A) :
  map_Forall (fun _ entry => Q (fst entry)) cache ->
  Q value ->
  map_Forall (fun _ entry => Q (fst entry)) (setEx cache now key seconds value).
Proof.
  intros Hall Hv. unfold setEx. destruct (0 <? seconds)%Z; [|exact Hall].
  apply map_Forall_insert_2; [exact Hv|exact Hall].
Qed.

Lemma isIso_toJSON (d : DateValue) : isIso (toJSON d) = true.
Proof. destruct d; reflexivity. Qed.

Lemma jsonCache_cacheChallenge now seconds c :
  preserves jsonCache (cacheChallenge now seconds c).
Proof.
  intros st [H1 H2]. split; [|exact H2]. cbn.
  apply (setEx_Forall (fun c => isIso (expiresAt c) = true)); [exact H1|].
  apply isIso_toJSON.
Qed.

Lemma jsonCache_cacheVerification now seconds v :
  preserves jsonCache (cacheVerification now seconds v).
Proof.
  intros st [H1 H2]. split; [exact H1|]. cbn.
  apply (setEx_Forall (fun v => isIso (v_expiresAt v) = true)); [exact H2|].
  apply isIso_toJSON.
Qed.

Lemma jsonCache_uncacheChallenge cid : preserves jsonCache (uncacheChallenge cid).
Proof.
  intros st [H1 H2]. split; [|exact H2]. cbn.
  apply map_Forall_delete. exact H1.
Qed.

Lemma jsonCache_updateStatus cid s : preserves jsonCache (updateStatus cid s).
Proof. intros st H. exact H. Qed.

Lemma jsonCache_insertChallenge c : preserves jsonCache (insertChallenge c).
Proof. intros st H. exact H. Qed.

Lemma jsonCache_insertVerification v : preserves jsonCache (insertVerification v).
Proof. intros st H. exact H. Qed.

Lemma jsonCache_insertPressureData r : preserves jsonCache (insertPressureData r).
Proof. intros st H. exact H. Qed.

Lemma jsonCache_selectChallenge cid : preserves jsonCache (selectChallenge cid).
Proof. intros st H. exact H. Qed.

Lemma jsonCache_selectVerification vid : preserves jsonCache (selectVerification vid).
Proof. intros st H. exact H. Qed.

Lemma preserves_jwt_sign P now secret expiresIn vid cid h conf at_ :
  preserves P (jwt_sign now secret expiresIn vid cid h conf at_).
Proof. intros st H. unfold jwt_sign. destruct secret; exact H. Qed.

(** The rules, applied along the structure of a computation. *)
Ltac frame :=
  repeat first
    [ assumption
    | apply preserves_ret
    | apply preserves_throw
    | apply preserves_gets
    | apply preserves_jwt_sign
    | apply jsonCache_cacheChallenge
    | apply jsonCache_cacheVerification
    | apply jsonCache_uncacheChallenge
    | apply jsonCache_updateStatus
    | apply jsonCache_insertChallenge
    | apply jsonCache_insertVerification
    | apply jsonCache_insertPressureData
    | apply jsonCache_selectChallenge
    | apply jsonCache_selectVerification
    | apply preserves_bind; [|intros ?]
    | apply preserves_tryCatch; [|intros ?]
    | match goal with
      | |- preserves _ (match ?x with _ => _ end) => destruct x
      end
    | progress cbv zeta
    | solve [intros ? H; exact H] ].




Lemma jsonCache_submitVerification cfg now vid pid sub :
  preserves jsonCache (submitVerification cfg now vid pid sub).
Proof.
  unfold submitVerification, generateVerificationToken.
  frame.
Qed.

Lemma jsonCache_initial : jsonCache initial.
Proof. split; apply map_Forall_empty. Qed.

Lemma jsonCache_createChallenge cfg now cid t d dur :
  preserves jsonCache (createChallenge cfg now cid t d dur).
Proof. unfold createChallenge. frame. Qed.


End LifecycleInvariant.

Section LifecycleMoreProperties.

Import Lifecycle Scenario LifecycleMore.
#[local] Open Scope lifecycle_scope.



















Lemma cached_verification_iso now vid st v :
  jsonCache st ->
  cached (verificationCache st) now vid = Some v ->
  isIso (v_expiresAt v) = true.
Proof.
  intros [_ H]. unfold cached.
  destruct (verificationCache st !! vid) as [[v0 e]|] eqn:E; [|discriminate].
  destruct (now <? e)%Z; [|discriminate]. intros [= <-].
  exact (H vid (v0, e) E).
Qed.

(** [X16] A verification in Redis never expires for [validateToken].  When
    the token verifies and Redis holds the verification it names, the
    answer is [valid: true] with the stored [isHuman] and [confidence],
    whatever the expiry date of the verification: the date is compared as
    a string.  Nothing is written. *)
Theorem cached_verification_never_expires :
  forall cfg now token claims st v,
    jsonCache st ->
    jwt_verify now (JWT_SECRET cfg) token = Some claims ->
    cached (verificationCache st) now (claim_verificationId claims) = Some v ->
    validateToken cfg now token st
    = (Returned [ ("valid"%string, JBool true);
                  ("isHuman"%string, JBool (v_isHuman v));
                  ("confidence"%string, ofNumber (v_confidence v));
                  ("verifiedAt"%string, JDate (v_processedAt v));
                  ("expiresAt"%string, JDate (v_expiresAt v)) ],
       st).
Proof.
  intros cfg now token claims st v Hjson Hverify Hc.
  assert (Hiso := cached_verification_iso _ _ _ _ Hjson Hc).
  unfold validateToken. rewrite Hverify.
  unfold bind at 1. unfold getVerification. unfold bind at 1. unfold gets at 1.
  rewrite Hc. unfold ret at 1.
  destruct (v_expiresAt v); [discriminate Hiso|reflexivity].
Qed.

(** The verification of the first submission, configured to expire after
    10 minutes, validated after 15 minutes. *)
Lemma cached_verification_never_expires_witness :
  exists v obj,
    firstVerification tenMinutes = Some v
    /\ instant (v_expiresAt v) = 601000%Z
    /\ fst (validateToken tenMinutes (minutes 15) (firstToken tenMinutes)
              (snd (first tenMinutes)))
       = Returned obj
    /\ property obj "valid" = JBool true.
Proof.
  assert (Hjson : jsonCache (snd (first tenMinutes))).
  { apply jsonCache_submitVerification, jsonCache_createChallenge, jsonCache_initial. }
  eexists. eexists.
  split; [vm_compute; reflexivity|].
  split; [reflexivity|].
  split.
  - erewrite (cached_verification_never_expires tenMinutes (minutes 15)
                (firstToken tenMinutes) _ (snd (first tenMinutes)) _ Hjson).
    + reflexivity.
    + vm_compute. reflexivity.
    + vm_compute. reflexivity.
  - reflexivity.
Defined.



End LifecycleMoreProperties.

Section ChallengeRouteProperties.

Import Lifecycle Scenario LifecycleMore ChallengeRoutes.
#[local] Open Scope lifecycle_scope.





End ChallengeRouteProperties.

Section ChallengeConfigProperties.

Import ChallengeConfig.


End ChallengeConfigProperties.

Section SubmitRouteProperties.

Import Lifecycle Scenario LifecycleMore Routes.
#[local] Open Scope lifecycle_scope.







End SubmitRouteProperties.

(** * The signatures of the service analyzer *)

Section SignatureProperties.

Import Analyzer.

Lemma length_normalizeArray (arr : list float) :
  List.length (normalizeArray arr) = List.length arr.
Proof.
  unfold normalizeArray. destruct arr as [|a arr]; [reflexivity|].
  cbv zeta. destruct (_ =? 0)%float; apply length_map.
Qed.

(** The loop [for (i = 0; i < n; i += step)] visits at most
    [(n + step - 1) / step] indices. *)
Lemma length_everyNth {A B} (f : A -> B) (step : nat) (a : list A) (skip : nat) :
  (skip < step)%nat ->
  (List.length (everyNth f step skip a) * step + skip
   <= List.length a + step - 1)%nat.
Proof.
  revert skip. induction a as [|x rest IH]; intros skip Hskip.
  - cbn. lia.
  - destruct skip as [|k].
    + cbn [everyNth List.length]. specialize (IH (step - 1)%nat ltac:(lia)). lia.
    + cbn [everyNth List.length]. specialize (IH k ltac:(lia)). lia.
Qed.

Lemma everyNth_short {A B} (f : A -> B) (a : list A) :
  everyNth f 1 0 a = map f a.
Proof.
  induction a as [|x rest IH]; [reflexivity|].
  cbn. now rewrite IH.
Qed.

Lemma sampled_bound {A B} (f : A -> B) (a : list A) (parts : nat) :
  (2 <= parts)%nat ->
  (List.length (everyNth f (Nat.max 1 (List.length a / parts)) 0 a)
   <= 2 * parts - 1)%nat
  /\ ((List.length a < 2 * parts)%nat ->
      everyNth f (Nat.max 1 (List.length a / parts)) 0 a = map f a).
Proof.
  intros Hparts.
  set (n := List.length a).
  assert (Hdiv : (parts * (n / parts) <= n < parts * (n / parts) + parts)%nat).
  { pose proof (Nat.div_mod_eq n parts).
    pose proof (Nat.mod_upper_bound n parts ltac:(lia)). lia. }
  destruct (Nat.lt_ge_cases n (2 * parts)) as [Hshort | Hlong].
  - assert (Hstep : Nat.max 1 (n / parts) = 1%nat).
    { assert (n / parts < 2)%nat by (apply Nat.Div0.div_lt_upper_bound; lia). lia. }
    rewrite Hstep, everyNth_short, length_map. fold n. split; [lia|reflexivity].
  - split; [|lia].
    assert (Hq : (2 <= n / parts)%nat)
      by (apply Nat.div_le_lower_bound; lia).
    replace (Nat.max 1 (n / parts)) with (n / parts)%nat by lia.
    pose proof (length_everyNth f (n / parts) a 0 ltac:(lia)) as H.
    fold n in H.
    set (k := List.length (everyNth f (n / parts) 0 a)) in *.
    set (q := (n / parts)%nat) in *.
    assert (Hk : (k * q <= parts * q + parts + q - 2)%nat) by lia.
    destruct (Nat.le_gt_cases k (2 * parts - 1)) as [Hle | Hgt]; [exact Hle|].
    assert (2 * parts * q <= k * q)%nat by (apply Nat.mul_le_mono_r; lia).
    assert (parts + q <= parts * q)%nat by nia.
    lia.
Qed.

(** [X22] The signatures are bounded summaries.  Whatever the number of
    samples, the pressure signature has at most 19 points and the motion
    signature at most 9; a series of fewer than 20 pressure samples, or of
    fewer than 10 motion samples, has one point for each sample. *)
Theorem signatures_bounded :
  forall (pd : list PressureSample) (md : list MotionSample),
    (List.length (createPressureSignature pd) <= 19)%nat
    /\ (List.length (createMotionSignature md) <= 9)%nat
    /\ ((List.length pd < 20)%nat ->
        List.length (createPressureSignature pd) = List.length pd)
    /\ ((List.length md < 10)%nat ->
        List.length (createMotionSignature md) = List.length md).
Proof.
  intros pd md.
  pose proof (sampled_bound signaturePoint (normalizeArray (map pressureOf pd)) 10
                ltac:(lia)) as [Hp Hp'].
  pose proof (sampled_bound signaturePoint (normalizeArray (map magnitudeOf md)) 5
                ltac:(lia)) as [Hm Hm'].
  unfold createPressureSignature. cbv zeta.
  split; [exact Hp|].
  split.
  - unfold createMotionSignature. destruct md; [cbn; lia|exact Hm].
  - split.
    + intros H. rewrite Hp' by (now rewrite length_normalizeArray, length_map).
      now rewrite length_map, length_normalizeArray, length_map.
    + intros H. unfold createMotionSignature. destruct md as [|m md]; [reflexivity|].
      cbv zeta. rewrite Hm' by (now rewrite length_normalizeArray, length_map).
      now rewrite length_map, length_normalizeArray, length_map.
Qed.

End SignatureProperties.

Section Resubmission.

Import Lifecycle Scenario LifecycleMore.
#[local] Open Scope lifecycle_scope.



End Resubmission.

(** * The tables *)

Section TablesGrow.

Import Lifecycle Tables.
#[local] Open Scope lifecycle_scope.




















End TablesGrow.

(** * The authentication of API keys *)

Section Authentication.

Import Lifecycle Auth.










End Authentication.
